(** * json_notifier: the Ansible callback plugin that posts run events to a webhook

    A shallow embedding of [plugins/callback/json_notifier.py] and the
    properties of its event mapper and of its delivery client.

    - Python dictionaries keep their insertion order: a [dict] is an
      association list with unique keys, updated in place.
    - Dictionaries the plugin shares with the engine or mutates after creating
      them live in a store ([heap]) and are named by reference ([VRef]).
    - The plugin object, the store and the trace of what the plugin did to
      the display, the clock and the HTTP transport form the [world];
      handlers are computations of the monad [M], which threads the world
      and lets exceptions pass.
    - The wall clock, the HTTP transport and the JSON encoder belong to the
      environment: the first two are read from an [env] given to every
      callback invocation, the encoder is a parameter of the development. *)

From stdpp Require Import base option list gmap strings sorting.
From Stdlib Require Import Ascii NArith Lia.

Set Warnings "-register-all".
Local Open Scope N_scope.

(** ** Values, dictionaries and the store *)

Abbreviation loc := positive.

(** What the engine's payloads and the envelopes are made of.  [VObj] is an
    engine-native object, known by its class name only. *)
Inductive value : Type :=
| VNone
| VBool (b : bool)
| VInt (n : Z)
| VStr (s : string)
| VList (l : list value)
| VDict (d : list (string * value))
| VRef (l : loc)
| VObj (class_name : string).

Definition dict := list (string * value).

Module Dict.

Definition keys (d : dict) : list string := d.*1.

(** [d.get(k)] *)
Fixpoint get (d : dict) (k : string) : option value :=
  match d with
  | [] => None
  | (k', v') :: d' => if String.eqb k' k then Some v' else get d' k
  end.

(** [d[k] = v]: an existing key keeps its position, a new one goes last. *)
Fixpoint setitem (d : dict) (k : string) (v : value) : dict :=
  match d with
  | [] => [(k, v)]
  | (k', v') :: d' =>
      if String.eqb k' k then (k', v) :: d' else (k', v') :: setitem d' k v
  end.

(** [d.update(other)]: [d[k] = v] for every item of [other], in its order. *)
Definition update (d other : dict) : dict :=
  fold_left (fun acc kv => setitem acc kv.1 kv.2) other d.

(** [d.copy()]: a new dictionary with the same items; the values themselves
    are shared. *)
Definition copy (d : dict) : dict := d.

End Dict.

Abbreviation heap := (gmap loc dict).

(** ** Exceptions and outcomes *)

(** A raised exception: whether it is an instance of [Exception] (what
    [except Exception] catches; [KeyboardInterrupt] and [SystemExit] are not)
    and its text, [to_text(e)]. *)
Record exn := { is_Exception : bool; exn_text : string }.

Inductive outcome (A : Type) : Type :=
| Return (a : A)
| Raise (e : exn).
Arguments Return {A} a.
Arguments Raise {A} e.

Definition IndexError : exn :=
  {| is_Exception := true; exn_text := "list index out of range" |}.
Definition KeyError (k : string) : exn :=
  {| is_Exception := true; exn_text := k |}.

(** ** The clock: [datetime.datetime] and [isoformat] *)

Definition is_digit (c : ascii) : bool :=
  let n := Ascii.N_of_ascii c in (48 <=? n) && (n <=? 57).

Definition digit_char (d : N) : ascii := Ascii.ascii_of_N (48 + d).

Definition digit_value (c : ascii) : N := Ascii.N_of_ascii c - 48.

(** The decimal digits of [n] in front of [acc], most significant first. *)
Fixpoint decimal_aux (fuel : nat) (n : N) (acc : string) : string :=
  match fuel with
  | O => acc
  | S fuel' =>
      let acc' := String (digit_char (n mod 10)) acc in
      if n / 10 =? 0 then acc' else decimal_aux fuel' (n / 10) acc'
  end.

(** ["%d" % n]; a number below [2 ^ k] has at most [k] decimal digits. *)
Definition decimal (n : N) : string :=
  decimal_aux (S (N.to_nat (N.log2 n))) n "".

Fixpoint zeros (k : nat) : string :=
  match k with
  | O => ""
  | S k' => String "0"%char (zeros k')
  end.

(** ["%0{width}d" % n]: padded with zeros on the left, never truncated. *)
Definition fmt_d (width : nat) (n : N) : string :=
  let s := decimal n in
  zeros (width - String.length s) +:+ s.

Module datetime.

Record t := {
  year : N; month : N; day : N;
  hour : N; minute : N; second : N; microsecond : N;
}.

(** The ranges [datetime] guarantees for its fields. *)
Definition valid (d : t) : bool :=
  (1 <=? year d) && (year d <=? 9999) &&
  (1 <=? month d) && (month d <=? 12) &&
  (1 <=? day d) && (day d <=? 31) &&
  (hour d <=? 23) && (minute d <=? 59) && (second d <=? 59) &&
  (microsecond d <=? 999999).

(** [d.isoformat()] of a naive [datetime]: the fraction is written only
    when [microsecond] is not zero. *)
Definition isoformat (d : t) : string :=
  fmt_d 4 (year d) +:+ "-" +:+ fmt_d 2 (month d) +:+ "-" +:+ fmt_d 2 (day d)
  +:+ "T" +:+ fmt_d 2 (hour d) +:+ ":" +:+ fmt_d 2 (minute d)
  +:+ ":" +:+ fmt_d 2 (second d)
  +:+ (if microsecond d =? 0 then "" else "." +:+ fmt_d 6 (microsecond d)).

(** The order of instants. *)
Definition to_tuple (d : t) : list N :=
  [year d; month d; day d; hour d; minute d; second d; microsecond d].

Fixpoint lex_le (a b : list N) : bool :=
  match a, b with
  | [], _ => true
  | _ :: _, [] => false
  | x :: a', y :: b' => (x <? y) || ((x =? y) && lex_le a' b')
  end.

Definition le (d1 d2 : t) : bool := lex_le (to_tuple d1) (to_tuple d2).

End datetime.

(** ** The plugin object and the world around it *)

Record CallbackModule := {
  _last_play : option string;
  _callback_url : option string;
  disabled : bool;
}.

(** One call of [open_url]. *)
Record http_call := {
  call_url : option string;
  call_data : string;
  call_headers : list (string * string);
}.

(** What a handler does to the world outside the plugin, in the order in
    which it does it. *)
Inductive event : Type :=
| Warned (msg : string)            (* [self._display.warning(msg)] *)
| Debugged (msg : option string)   (* [self._display.debug(msg)] *)
| Requested (call : http_call)     (* [open_url(...)] *)
| ClockRead (now : datetime.t)     (* [datetime.datetime.utcnow()] *)
(* history, not an effect of the plugin: [send_msg] is entered with this
   envelope *)
| HandedOver (msg : dict).

Record world := {
  self : CallbackModule;
  store : heap;
  events : list event;
}.

Definition warnings (w : world) : list string :=
  omap (fun e => match e with Warned msg => Some msg | _ => None end)
       (events w).

Definition debugs (w : world) : list (option string) :=
  omap (fun e => match e with Debugged msg => Some msg | _ => None end)
       (events w).

Definition http_log (w : world) : list http_call :=
  omap (fun e => match e with Requested call => Some call | _ => None end)
       (events w).

Definition clock_reads (w : world) : list datetime.t :=
  omap (fun e => match e with ClockRead now => Some now | _ => None end)
       (events w).

Definition envelopes (w : world) : list dict :=
  omap (fun e => match e with HandedOver msg => Some msg | _ => None end)
       (events w).

(** [CallbackModule.__init__]; [CallbackBase.__init__] sets [disabled] to
    [False]. *)
Definition __init__ : CallbackModule :=
  {| _last_play := None; _callback_url := None; disabled := false |}.

Definition initial_world (h : heap) : world :=
  {| self := __init__; store := h; events := [] |}.

Definition with_self (s : CallbackModule) (w : world) : world :=
  {| self := s; store := store w; events := events w |}.

Definition with_store (h : heap) (w : world) : world :=
  {| self := self w; store := h; events := events w |}.

Definition add_event (e : event) (w : world) : world :=
  {| self := self w; store := store w; events := events w ++ [e] |}.

Definition add_warning (msg : string) : world -> world :=
  add_event (Warned msg).

Definition add_debug (msg : option string) : world -> world :=
  add_event (Debugged msg).

Definition add_call (c : http_call) : world -> world :=
  add_event (Requested c).

Definition add_clock_read (now : datetime.t) : world -> world :=
  add_event (ClockRead now).

Definition add_envelope (msg : dict) : world -> world :=
  add_event (HandedOver msg).

(** ** The monad of handlers *)

Definition M (A : Type) : Type := world -> outcome A * world.

Definition ret {A} (a : A) : M A := fun w => (Return a, w).

Definition raise {A} (e : exn) : M A := fun w => (Raise e, w).

Definition bind {A B} (m : M A) (k : A -> M B) : M B :=
  fun w =>
    match m w with
    | (Return a, w') => k a w'
    | (Raise e, w') => (Raise e, w')
    end.

Declare Scope handler_scope.
Delimit Scope handler_scope with handler.
Notation "x <- m ;; k" := (bind m (fun x => k))
  (at level 100, m at next level, right associativity) : handler_scope.
Notation "m ;; k" := (bind m (fun _ => k))
  (at level 100, right associativity) : handler_scope.
Local Open Scope handler_scope.

(** [try: body  except Exception as e: handler e] *)
Definition try_except_Exception {A} (body : M A) (handler : exn -> M A) : M A :=
  fun w =>
    match body w with
    | (Return a, w') => (Return a, w')
    | (Raise e, w') =>
        if is_Exception e then handler e w' else (Raise e, w')
    end.

Definition lift {A} (o : outcome A) : M A := fun w => (o, w).

Definition modify (f : world -> world) : M unit := fun w => (Return (), f w).

Definition get_self : M CallbackModule := fun w => (Return (self w), w).

Definition put_self (s : CallbackModule) : M unit := modify (with_self s).

Definition get_store : M heap := fun w => (Return (store w), w).

Definition put_store (h : heap) : M unit := modify (with_store h).

Definition display_warning (msg : string) : M unit := modify (add_warning msg).

Definition display_debug (msg : option string) : M unit :=
  modify (add_debug msg).

Definition record_call (c : http_call) : M unit := modify (add_call c).

Definition record_clock_read (now : datetime.t) : M unit :=
  modify (add_clock_read now).

Definition record_envelope (msg : dict) : M unit := modify (add_envelope msg).

(** Dictionaries in the store. *)

(** A new dictionary object, at a location not in use. *)
Definition new_dict (d : dict) : M loc :=
  h <- get_store ;;
  let l := fresh (dom h) in
  put_store (<[l := d]> h) ;;
  ret l.

(** A reference of the program always names an object of the store; the
    model raises on one that does not. *)
Definition read_dict (l : loc) : M dict :=
  h <- get_store ;;
  match h !! l with
  | Some d => ret d
  | None => raise (KeyError "dangling reference")
  end.

Definition write_dict (l : loc) (d : dict) : M unit :=
  h <- get_store ;;
  put_store (<[l := d]> h).

Definition dict_copy (l : loc) : M loc :=
  d <- read_dict l ;; new_dict (Dict.copy d).

Definition dict_update (l : loc) (other : dict) : M unit :=
  d <- read_dict l ;; write_dict l (Dict.update d other).

Definition dict_setitem (l : loc) (k : string) (v : value) : M unit :=
  d <- read_dict l ;; write_dict l (Dict.setitem d k v).

(** ** The engine's objects, as far as the plugin reads them *)

(** [to_text] of a value that is text already. *)
Definition to_text (s : string) : string := s.

Module Play.
Record t := { _uuid : string; get_name : string }.
End Play.

Module Host.
Record t := { get_name : string }.
End Host.

Module Task.
Record t := {
  _uuid : string;
  get_path : string;
  get_name : string;
  action : string;
  notified_hosts : list Host.t;
}.
End Task.

Module TaskResult.
(** [_result] is the engine's own dictionary: a reference into the store. *)
Record t := { _host : Host.t; _task : Task.t; _result : loc }.
End TaskResult.

Module Stats.
(** [processed] has the hosts seen as its keys; [summarize(h)] gives the
    counters of host [h]. *)
Record t := { processed : dict; summarize : string -> value }.
End Stats.

(** ** The environment of one callback invocation *)

(** What [open_url] returns: an object whose [read()] gives the body. *)
Record response := { read : outcome string }.

Record env := {
  (* the reading [datetime.datetime.utcnow()] gives *)
  utcnow : datetime.t;
  (* [open_url(url, data=data, headers=headers)] *)
  open_url :
    option string -> string -> list (string * string) -> outcome response;
  (* the names of the attributes the plugin inherits from [CallbackBase]
     and from [object] *)
  inherited : string -> bool;
}.

(** [sorted] on strings: ascending in the order of [str], which compares
    code points; on UTF-8 text that is the order of the bytes.  The order
    is total and antisymmetric, so the sorted list does not depend on the
    sorting algorithm. *)
Definition str_le (a b : string) : Prop := String.leb a b = true.

Global Instance str_le_dec a b : Decision (str_le a b).
Proof. unfold str_le. apply _. Defined.

Definition sorted (l : list string) : list string := merge_sort str_le l.

(** [s.rsplit(sep, 1)] for a one-character separator: [s] is cut at the
    last separator, and left whole when it has none. *)
Fixpoint rsplit_at (sep : ascii) (s : string) : option (string * string) :=
  match s with
  | EmptyString => None
  | String a s' =>
      match rsplit_at sep s' with
      | Some (before, after) => Some (String a before, after)
      | None => if Ascii.eqb a sep then Some (EmptyString, s') else None
      end
  end.

Definition rsplit1 (sep : ascii) (s : string) : list string :=
  match rsplit_at sep s with
  | Some (before, after) => [before; after]
  | None => [s]
  end.

(** [name in names] *)
Definition str_in (name : string) (names : list string) : bool :=
  existsb (String.eqb name) names.

(** ** The plugin *)

Definition set_last_play (p : option string) : M unit :=
  s <- get_self ;;
  put_self {| _last_play := p; _callback_url := _callback_url s;
              disabled := disabled s |}.

Definition set_callback_url (u : option string) : M unit :=
  s <- get_self ;;
  put_self {| _last_play := _last_play s; _callback_url := u;
              disabled := disabled s |}.

Definition set_disabled (b : bool) : M unit :=
  s <- get_self ;;
  put_self {| _last_play := _last_play s; _callback_url := _callback_url s;
              disabled := b |}.

(** [for x in l: body x] *)
Fixpoint for_each {A} (l : list A) (body : A -> M unit) : M unit :=
  match l with
  | [] => ret ()
  | x :: l' => body x ;; for_each l' body
  end.

(** [None] or a string, as a value of an envelope. *)
Definition optional_str (o : option string) : value :=
  match o with
  | Some s => VStr s
  | None => VNone
  end.

(** [set_options].  [super_set_options] is the outcome of the base class's
    [set_options], which loads the options and may raise instead;
    [get_option] is how the options resolve once it has loaded them. *)
Definition set_options
    (super_set_options : outcome unit)
    (get_option : string -> option string) : M unit :=
  lift super_set_options ;;
  set_callback_url (get_option "json_webhook_url") ;;
  s <- get_self ;;
  match _callback_url s with
  | None =>
      set_disabled true ;;
      display_warning
        ("JSON Webhook URL was not provided. The "
         +:+ "JSON Webhook URL can be provided using "
         +:+ "the `JSON_WEBHOOK_URL` environment "
         +:+ "variable.")
  | Some _ => ret ()
  end.

(** What looking an attribute up on the plugin gives: the partial
    application [partial(self._record_task_result, on_info)], or whatever
    [object.__getattribute__] finds under that name. *)
Inductive attribute : Type :=
| PartialRecordTaskResult (on_info : dict)
| ObjectAttribute (name : string).

(** [AttributeError], with the text Python gives it. *)
Definition AttributeError (name : string) : exn :=
  {| is_Exception := true;
     exn_text :=
       "'CallbackModule' object has no attribute '" +:+ name +:+ "'" |}.

(** The names the class body and [__init__] define on the plugin. *)
Definition own_attributes : list string :=
  ["CALLBACK_VERSION"; "CALLBACK_TYPE"; "CALLBACK_NAME";
   "CALLBACK_NEEDS_WHITELIST"; "__init__"; "_last_play"; "_callback_url";
   "set_options"; "send_msg"; "v2_playbook_on_play_start";
   "v2_runner_on_start"; "v2_playbook_on_task_start";
   "v2_playbook_on_handler_task_start"; "v2_playbook_on_stats";
   "_record_task_result"; "__getattribute__"].

(** [object.__getattribute__(self, name)], the ordinary lookup: it finds
    what the plugin defines itself and what it inherits, and raises
    [AttributeError] for any other name. *)
Definition object_getattribute
    (inherited : string -> bool) (name : string) : outcome attribute :=
  if str_in name own_attributes || inherited name
  then Return (ObjectAttribute name)
  else Raise (AttributeError name).

Definition __getattribute__
    (inherited : string -> bool) (name : string) : outcome attribute :=
  if negb (str_in name
             ["v2_runner_on_ok"; "v2_runner_on_failed";
              "v2_runner_on_unreachable"; "v2_runner_on_skipped"])
  then object_getattribute inherited name
  else
    match rsplit1 "_" name !! 1%nat with
    | None => Raise IndexError
    | Some on =>
        let on_info := [] in
        (* unreachable is already in the dict. *)
        let on_info :=
          if str_in on ["failed"; "skipped"; "ok"]
          then Dict.setitem on_info on (VBool true)
          else on_info in
        Return (PartialRecordTaskResult on_info)
    end.

Section Plugin.

(** [json.dumps(msg, cls=AnsibleJSONEncoder)]; the encoder follows the
    references of the message into the store. *)
Variable json_dumps : heap -> dict -> outcome string.

Variable E : env.

(** [datetime.datetime.utcnow()] *)
Definition datetime_utcnow : M datetime.t :=
  record_clock_read (utcnow E) ;;
  ret (utcnow E).

Definition current_time : M string :=
  now <- datetime_utcnow ;;
  ret (datetime.isoformat now +:+ "Z").

Definition send_msg (msg : dict) : M (option string) :=
  record_envelope msg ;;
  let headers := [("Content-type", "application/json")] in
  h <- get_store ;;
  data <- lift (json_dumps h msg) ;;
  display_debug (Some data) ;;
  s <- get_self ;;
  display_debug (_callback_url s) ;;
  try_except_Exception
    (s <- get_self ;;
     record_call {| call_url := _callback_url s; call_data := data;
                    call_headers := headers |} ;;
     response <- lift (open_url E (_callback_url s) data headers) ;;
     body <- lift (read response) ;;
     ret (Some body))
    (fun e =>
       display_warning
         ("Could not submit message to webhook: " +:+ exn_text e) ;;
       ret None).

Definition v2_playbook_on_play_start (play : Play.t) : M unit :=
  set_last_play (Some (to_text (Play._uuid play))) ;;
  now <- current_time ;;
  let event :=
    [("type", VStr "play_start");
     ("id", VStr (to_text (Play._uuid play)));
     ("start", VStr now);
     ("name", VStr (Play.get_name play))] in
  send_msg event ;;
  ret ().

Definition v2_runner_on_start (host : Host.t) (task : Task.t) : M unit :=
  s <- get_self ;;
  now <- current_time ;;
  let event :=
    [("type", VStr "task_host_start");
     ("play", optional_str (_last_play s));
     ("id", VStr (to_text (Task._uuid task)));
     ("path", VStr (Task.get_path task));
     ("name", VStr (Task.get_name task));
     ("start", VStr now);
     ("host", VStr (Host.get_name host))] in
  send_msg event ;;
  ret ().

Definition v2_playbook_on_task_start
    (task : Task.t) (is_conditional : bool) : M unit :=
  s <- get_self ;;
  now <- current_time ;;
  let event :=
    [("type", VStr "task_start");
     ("play", optional_str (_last_play s));
     ("id", VStr (to_text (Task._uuid task)));
     ("path", VStr (Task.get_path task));
     ("name", VStr (Task.get_name task));
     ("start", VStr now)] in
  send_msg event ;;
  ret ().

Definition v2_playbook_on_handler_task_start (task : Task.t) : M unit :=
  s <- get_self ;;
  now <- current_time ;;
  let event :=
    [("type", VStr "task__handler_start");
     ("play", optional_str (_last_play s));
     ("id", VStr (to_text (Task._uuid task)));
     ("path", VStr (Task.get_path task));
     ("name", VStr (Task.get_name task));
     ("start", VStr now);
     ("notified_host",
       VList (map (fun host => VStr (Host.get_name host))
                  (Task.notified_hosts task)))] in
  send_msg event ;;
  ret ().

Definition v2_playbook_on_stats (stats : Stats.t) : M unit :=
  let hosts := sorted (Dict.keys (Stats.processed stats)) in
  summary <- new_dict [] ;;
  for_each hosts
    (fun h =>
       let s := Stats.summarize stats h in
       dict_setitem summary h s) ;;
  now <- current_time ;;
  let event :=
    [("type", VStr "playbook_end");
     ("end", VStr now);
     ("result", VRef summary)] in
  send_msg event ;;
  ret ().

Definition _record_task_result
    (on_info : dict) (result : TaskResult.t) (kwargs : dict) : M unit :=
  let host := TaskResult._host result in
  let task := TaskResult._task result in
  result_copy <- dict_copy (TaskResult._result result) ;;
  dict_update result_copy on_info ;;
  dict_setitem result_copy "action" (VStr (Task.action task)) ;;
  s <- get_self ;;
  now <- current_time ;;
  let event :=
    [("type", VStr "task_host_end");
     ("play", optional_str (_last_play s));
     ("id", VStr (to_text (Task._uuid task)));
     ("path", VStr (Task.get_path task));
     ("name", VStr (Task.get_name task));
     ("end", VStr now);
     ("host", VStr (Host.get_name host));
     ("result", VRef result_copy)] in
  send_msg event ;;
  ret ().

(** [getattr(self, name)(result, **kwargs)] for a completion callback.
    Under a name [__getattribute__] does not intercept, the method found
    is the base class's, which sends nothing. *)
Definition call_completion
    (name : string) (result : TaskResult.t) (kwargs : dict) : M unit :=
  attr <- lift (__getattribute__ (inherited E) name) ;;
  match attr with
  | PartialRecordTaskResult on_info =>
      _record_task_result on_info result kwargs
  | ObjectAttribute _ => ret ()
  end.

Definition v2_runner_on_ok := call_completion "v2_runner_on_ok".
Definition v2_runner_on_failed := call_completion "v2_runner_on_failed".
Definition v2_runner_on_unreachable :=
  call_completion "v2_runner_on_unreachable".
Definition v2_runner_on_skipped := call_completion "v2_runner_on_skipped".

End Plugin.

(** ** Notifications *)

(** The callbacks the engine invokes on the plugin. *)
Inductive notification : Type :=
| PlayStart (play : Play.t)
| RunnerStart (host : Host.t) (task : Task.t)
| TaskStart (task : Task.t) (is_conditional : bool)
| HandlerTaskStart (task : Task.t)
| PlaybookStats (stats : Stats.t)
| RunnerOk (result : TaskResult.t) (kwargs : dict)
| RunnerFailed (result : TaskResult.t) (kwargs : dict)
| RunnerUnreachable (result : TaskResult.t) (kwargs : dict)
| RunnerSkipped (result : TaskResult.t) (kwargs : dict).

Definition notify
    (json_dumps : heap -> dict -> outcome string) (E : env)
    (n : notification) : M unit :=
  match n with
  | PlayStart play => v2_playbook_on_play_start json_dumps E play
  | RunnerStart host task => v2_runner_on_start json_dumps E host task
  | TaskStart task c => v2_playbook_on_task_start json_dumps E task c
  | HandlerTaskStart task =>
      v2_playbook_on_handler_task_start json_dumps E task
  | PlaybookStats stats => v2_playbook_on_stats json_dumps E stats
  | RunnerOk r kw => v2_runner_on_ok json_dumps E r kw
  | RunnerFailed r kw => v2_runner_on_failed json_dumps E r kw
  | RunnerUnreachable r kw => v2_runner_on_unreachable json_dumps E r kw
  | RunnerSkipped r kw => v2_runner_on_skipped json_dumps E r kw
  end.

(** A run: the callbacks invoked one after the other, each in the
    environment of its moment; the engine goes on whatever a callback
    raises. *)
Fixpoint run
    (json_dumps : heap -> dict -> outcome string)
    (steps : list (env * notification)) (w : world) : world :=
  match steps with
  | [] => w
  | (E, n) :: steps' => run json_dumps steps' (notify json_dumps E n w).2
  end.

(** * Notions the properties are stated with *)

(** ** The delivery client *)

Definition headers_sent : list (string * string) :=
  [("Content-type", "application/json")].

Definition webhook_warning (e : exn) : string :=
  "Could not submit message to webhook: " +:+ exn_text e.

(** The timestamp [current_time] makes of the reading of the clock. *)
Definition timestamp_at (E : env) : string :=
  datetime.isoformat (utcnow E) +:+ "Z".

(** The world when a handler that has read the clock has its envelope
    ready. *)
Definition at_envelope_ready (E : env) (w : world) : world :=
  add_clock_read (utcnow E) w.

(** The world at the moment [send_msg] calls the transport with [data]. *)
Definition at_transport_call (msg : dict) (data : string) (w : world) : world :=
  let url := _callback_url (self w) in
  add_call {| call_url := url; call_data := data;
              call_headers := headers_sent |}
    (add_debug url (add_debug (Some data) (add_envelope msg w))).

(** What the transport does with one call: [open_url] and then [read]. *)
Definition transport
    (E : env) (url : option string) (data : string) : outcome string :=
  match open_url E url data headers_sent with
  | Return response => read response
  | Raise e => Raise e
  end.


(** [sub in s] on strings. *)
Fixpoint str_contains (sub s : string) : bool :=
  String.prefix sub s ||
  match s with
  | EmptyString => false
  | String _ s' => str_contains sub s'
  end.

(** The warning of [set_options] when no URL is configured. *)
Definition missing_url_warning : string :=
  "JSON Webhook URL was not provided. The JSON Webhook URL can be provided using the `JSON_WEBHOOK_URL` environment variable.".

(** The engine's side of the [disabled] flag.  [set_options] writes the
    flag and nothing in the plugin reads it: it is there for the engine
    that dispatches the callbacks.  In a run of the engine, [invokes]
    tells, from the plugin object, whether the engine invokes the plugin's
    callback for the event at hand or passes the plugin over. *)
Fixpoint engine_run
    (invokes : CallbackModule -> bool)
    (json_dumps : heap -> dict -> outcome string)
    (steps : list (env * notification)) (w : world) : world :=
  match steps with
  | [] => w
  | (E, n) :: steps' =>
      engine_run invokes json_dumps steps'
        (if invokes (self w) then (notify json_dumps E n w).2 else w)
  end.


(** ** The event mapper *)

(** The four outcomes of a host's task. *)
Inductive completion : Type := Ok | Failed | Skipped | Unreachable.

Definition completion_handler json_dumps E (c : completion) :
    TaskResult.t -> dict -> M unit :=
  match c with
  | Ok => v2_runner_on_ok json_dumps E
  | Failed => v2_runner_on_failed json_dumps E
  | Skipped => v2_runner_on_skipped json_dumps E
  | Unreachable => v2_runner_on_unreachable json_dumps E
  end.

(** The table of the outcome flags: one flag for [ok], [failed] and
    [skipped], none for [unreachable]. *)
Definition outcome_flags (c : completion) : dict :=
  match c with
  | Ok => [("ok", VBool true)]
  | Failed => [("failed", VBool true)]
  | Skipped => [("skipped", VBool true)]
  | Unreachable => []
  end.

(** The [task_host_end] envelope of [result], with the play [play], the
    timestamp [now] and the result mapping at [l]. *)
Definition task_host_end_envelope
    (play : option string) (result : TaskResult.t) (now : string) (l : loc)
    : dict :=
  let task := TaskResult._task result in
  [("type", VStr "task_host_end");
   ("play", optional_str play);
   ("id", VStr (Task._uuid task));
   ("path", VStr (Task.get_path task));
   ("name", VStr (Task.get_name task));
   ("end", VStr now);
   ("host", VStr (Host.get_name (TaskResult._host result)));
   ("result", VRef l)].

(** A handler's last step: the envelope goes to [send_msg], whose value is
    dropped. *)
Definition deliver json_dumps E (msg : dict) : M unit :=
  (send_msg json_dumps E msg ;; ret ())%handler.

(** The explicit design: one shared completion builder that takes the
    outcome, its flags read from the table, and four thin functions that
    delegate to it. *)
Definition completion_builder json_dumps E (c : completion) :
    TaskResult.t -> dict -> M unit :=
  _record_task_result json_dumps E (outcome_flags c).

Definition explicit_v2_runner_on_ok json_dumps E :=
  completion_builder json_dumps E Ok.
Definition explicit_v2_runner_on_failed json_dumps E :=
  completion_builder json_dumps E Failed.
Definition explicit_v2_runner_on_skipped json_dumps E :=
  completion_builder json_dumps E Skipped.
Definition explicit_v2_runner_on_unreachable json_dumps E :=
  completion_builder json_dumps E Unreachable.

(** ** Sample inputs *)

Module Sample.

Definition web1 : Host.t := {| Host.get_name := "web1" |}.

Definition deploy : Play.t :=
  {| Play._uuid := "abc-123"; Play.get_name := "deploy" |}.

Definition t1 : Task.t :=
  {| Task._uuid := "t1"; Task.get_path := "site.yml:7";
     Task.get_name := "install"; Task.action := "ansible.builtin.copy";
     Task.notified_hosts := [web1] |}.

(** The engine's payload of [t1] on [web1], stored at location 1. *)
Definition payload : dict := [("changed", VBool false); ("rc", VInt 2)].

Definition engine_store : gmap positive dict := {[ 1%positive := payload ]}.

Definition result : TaskResult.t :=
  {| TaskResult._host := web1; TaskResult._task := t1;
     TaskResult._result := 1%positive |}.

Definition midnight : datetime.t :=
  {| datetime.year := 2024; datetime.month := 1; datetime.day := 1;
     datetime.hour := 0; datetime.minute := 0; datetime.second := 0;
     datetime.microsecond := 0 |}.

Definition just_after_midnight : datetime.t :=
  {| datetime.year := 2024; datetime.month := 1; datetime.day := 1;
     datetime.hour := 0; datetime.minute := 0; datetime.second := 0;
     datetime.microsecond := 1 |}.

Definition ValueError (text : string) : exn :=
  {| is_Exception := true; exn_text := text |}.

Definition TypeError (text : string) : exn :=
  {| is_Exception := true; exn_text := text |}.

(** Attributes of the base class the plugin reads. *)
Definition callback_base (name : string) : bool :=
  str_in name ["_display"; "get_option"; "disabled"].

(** A transport that accepts every request and answers [ok]. *)
Definition accepting (now : datetime.t) : env :=
  {| utcnow := now;
     open_url := fun _ _ _ => Return {| read := Return "ok" |};
     inherited := callback_base |}.

(** A transport that cannot reach the webhook. *)
Definition unreachable_webhook (now : datetime.t) : env :=
  {| utcnow := now;
     open_url := fun _ _ _ => Raise (ValueError "connection refused");
     inherited := callback_base |}.


(** An encoder that renders the keys of the envelope only. *)
Definition keys_encoder : gmap positive dict -> dict -> outcome string :=
  fun _ msg => Return (String.concat "," (Dict.keys msg)).

(** An encoder that cannot render anything. *)
Definition failing_encoder : gmap positive dict -> dict -> outcome string :=
  fun _ _ => Raise (TypeError "Object of type Host is not JSON serializable").

(** The plugin after [set_options] with the URL configured. *)
Definition configured : world :=
  (set_options (Return ()) (fun _ => Some "http://hook.example/events")
     (initial_world engine_store)).2.

(** Three hosts, in the order the engine met them. *)
Definition stats : Stats.t :=
  {| Stats.processed :=
       [("web2", VInt 1); ("db", VInt 1); ("web1", VInt 1)];
     Stats.summarize := fun h =>
       VDict [("ok", VInt (if String.eqb h "db" then 3 else 2));
              ("failures", VInt 0)] |}.

End Sample.

(** The [playbook_end] envelope with the timestamp [now] and the summary
    mapping at [l]. *)
Definition playbook_end_envelope (now : string) (l : positive) : dict :=
  [("type", VStr "playbook_end"); ("end", VStr now); ("result", VRef l)].

(** ** Reading timestamps *)

Definition take_char (c : ascii) (s : string) : option string :=
  match s with
  | String c' s' => if Ascii.eqb c c' then Some s' else None
  | EmptyString => None
  end.

(** Exactly [k] digits, skipped. *)
Fixpoint skip_digits (k : nat) (s : string) : option string :=
  match k, s with
  | O, _ => Some s
  | S k', String c s' => if is_digit c then skip_digits k' s' else None
  | S _, EmptyString => None
  end.

(** The pattern [YYYY-MM-DDTHH:MM:SS(.ffffff)?Z], every letter a digit. *)
Definition timestamp_pattern (s : string) : bool :=
  match
    s ← skip_digits 4 s; s ← take_char "-" s;
    s ← skip_digits 2 s; s ← take_char "-" s;
    s ← skip_digits 2 s; s ← take_char "T" s;
    s ← skip_digits 2 s; s ← take_char ":" s;
    s ← skip_digits 2 s; s ← take_char ":" s;
    skip_digits 2 s
  with
  | Some rest =>
      String.eqb rest "Z" ||
      match s ← take_char "." rest; skip_digits 6 s with
      | Some rest' => String.eqb rest' "Z"
      | None => false
      end
  | None => false
  end.

(** Exactly [k] digits, read as a number in base ten after [acc]. *)
Fixpoint take_digits_from (k : nat) (acc : N) (s : string)
    : option (N * string) :=
  match k, s with
  | O, _ => Some (acc, s)
  | S k', String c s' =>
      if is_digit c then take_digits_from k' (10 * acc + digit_value c) s'
      else None
  | S _, EmptyString => None
  end.

Definition take_digits (k : nat) (s : string) : option (N * string) :=
  take_digits_from k 0 s.

(** The instant a timestamp of that pattern denotes. *)
Definition parse_time (s : string) : option datetime.t :=
  '(y, s) ← take_digits 4 s; s ← take_char "-" s;
  '(mo, s) ← take_digits 2 s; s ← take_char "-" s;
  '(d, s) ← take_digits 2 s; s ← take_char "T" s;
  '(h, s) ← take_digits 2 s; s ← take_char ":" s;
  '(mi, s) ← take_digits 2 s; s ← take_char ":" s;
  '(sec, s) ← take_digits 2 s;
  '(us, s) ← match take_char "." s with
             | Some s' => take_digits 6 s'
             | None => Some (0, s)
             end;
  if String.eqb s "Z"
  then Some {| datetime.year := y; datetime.month := mo; datetime.day := d;
               datetime.hour := h; datetime.minute := mi;
               datetime.second := sec; datetime.microsecond := us |}
  else None.

(** The timestamp of an envelope: its [start], else its [end]. *)
Definition timestamp_of (msg : dict) : option string :=
  match Dict.get msg "start" with
  | Some (VStr s) => Some s
  | _ =>
      match Dict.get msg "end" with
      | Some (VStr s) => Some s
      | _ => None
      end
  end.

Fixpoint all_digits (s : string) : bool :=
  match s with
  | EmptyString => true
  | String c s' => is_digit c && all_digits s'
  end.

(** The number the digits of [s] write in base ten, after [acc]. *)
Fixpoint value_from (acc : N) (s : string) : N :=
  match s with
  | EmptyString => acc
  | String c s' => value_from (10 * acc + digit_value c) s'
  end.

(** [s] writes [n] with exactly [w] digits. *)
Definition numeral (w : nat) (n : N) (s : string) : Prop :=
  String.length s = w /\ all_digits s = true /\ value_from 0 s = n.

(** How [isoformat] and the final [Z] end a timestamp. *)
Definition fraction_and_zone (d : datetime.t) : string :=
  if datetime.microsecond d =? 0 then "Z"
  else String "." (fmt_d 6 (datetime.microsecond d) +:+ "Z").

(** ** The table of the event mapper *)

(** The envelope of each notification: [now] is the timestamp, [play] the
    current play and [l] the mapping made for the envelope, when it has
    one. *)
Definition envelope_of
    (now : string) (play : option string) (l : positive) (n : notification)
    : dict :=
  match n with
  | PlayStart p =>
      [("type", VStr "play_start");
       ("id", VStr (Play._uuid p));
       ("start", VStr now);
       ("name", VStr (Play.get_name p))]
  | RunnerStart host task =>
      [("type", VStr "task_host_start");
       ("play", optional_str play);
       ("id", VStr (Task._uuid task));
       ("path", VStr (Task.get_path task));
       ("name", VStr (Task.get_name task));
       ("start", VStr now);
       ("host", VStr (Host.get_name host))]
  | TaskStart task _ =>
      [("type", VStr "task_start");
       ("play", optional_str play);
       ("id", VStr (Task._uuid task));
       ("path", VStr (Task.get_path task));
       ("name", VStr (Task.get_name task));
       ("start", VStr now)]
  | HandlerTaskStart task =>
      [("type", VStr "task__handler_start");
       ("play", optional_str play);
       ("id", VStr (Task._uuid task));
       ("path", VStr (Task.get_path task));
       ("name", VStr (Task.get_name task));
       ("start", VStr now);
       ("notified_host",
         VList (map (fun host => VStr (Host.get_name host))
                    (Task.notified_hosts task)))]
  | PlaybookStats _ => playbook_end_envelope now l
  | RunnerOk r _ | RunnerFailed r _ | RunnerUnreachable r _
  | RunnerSkipped r _ => task_host_end_envelope play r now l
  end.

(** The plugin object after a notification: a play start records the
    play's identifier, nothing else writes to the object. *)
Definition self_after (n : notification) (s : CallbackModule)
    : CallbackModule :=
  match n with
  | PlayStart p =>
      {| _last_play := Some (Play._uuid p);
         _callback_url := _callback_url s; disabled := disabled s |}
  | _ => s
  end.

(** The play a run has started last, [current] when it started none. *)
Definition latest_play
    (ns : list notification) (current : option string) : option string :=
  fold_left
    (fun cur n =>
       match n with
       | PlayStart p => Some (Play._uuid p)
       | _ => cur
       end)
    ns current.

(** The [play] field of the envelope of [n], when it has one. *)
Definition play_field (n : notification) (current : option string)
    : option value :=
  match n with
  | PlayStart _ | PlaybookStats _ => None
  | _ => Some (optional_str current)
  end.

(** The warnings one call of the transport adds to the display. *)
Definition transport_warnings
    (E : env) (url : option string) (data : string) : list string :=
  match transport E url data with
  | Return _ => []
  | Raise e => if is_Exception e then [webhook_warning e] else []
  end.

(** Whether the instants two timestamps denote are in order. *)
Definition instants_nondecreasing (ts1 ts2 : string) : bool :=
  match parse_time ts1, parse_time ts2 with
  | Some t1, Some t2 => datetime.le t1 t2
  | _, _ => false
  end.

(** ** Notions of the further properties *)

(** The request [send_msg] makes from a world with the data [data]. *)
Definition request_of (w : world) (data : string) : http_call :=
  {| call_url := _callback_url (self w); call_data := data;
     call_headers := headers_sent |}.

(** The names [__getattribute__] intercepts. *)
Definition intercepted_names : list string :=
  ["v2_runner_on_ok"; "v2_runner_on_failed"; "v2_runner_on_unreachable";
   "v2_runner_on_skipped"].

(** The [type] of the envelope of a notification. *)
Definition type_tag (n : notification) : string :=
  match n with
  | PlayStart _ => "play_start"
  | RunnerStart _ _ => "task_host_start"
  | TaskStart _ _ => "task_start"
  | HandlerTaskStart _ => "task__handler_start"
  | PlaybookStats _ => "playbook_end"
  | RunnerOk _ _ | RunnerFailed _ _ | RunnerUnreachable _ _
  | RunnerSkipped _ _ => "task_host_end"
  end.

(** The keys of the envelope of a notification, in their order. *)
Definition envelope_keys (n : notification) : list string :=
  match n with
  | PlayStart _ => ["type"; "id"; "start"; "name"]
  | RunnerStart _ _ =>
      ["type"; "play"; "id"; "path"; "name"; "start"; "host"]
  | TaskStart _ _ => ["type"; "play"; "id"; "path"; "name"; "start"]
  | HandlerTaskStart _ =>
      ["type"; "play"; "id"; "path"; "name"; "start"; "notified_host"]
  | PlaybookStats _ => ["type"; "end"; "result"]
  | RunnerOk _ _ | RunnerFailed _ _ | RunnerUnreachable _ _
  | RunnerSkipped _ _ =>
      ["type"; "play"; "id"; "path"; "name"; "end"; "host"; "result"]
  end.

(** Whether a notification touches the store: the end-of-run summary and
    the completions make a mapping, the start events make none. *)
Definition makes_mapping (n : notification) : bool :=
  match n with
  | PlayStart _ | RunnerStart _ _ | TaskStart _ _ | HandlerTaskStart _ =>
      false
  | _ => true
  end.

Definition is_play_start (n : notification) : bool :=
  match n with
  | PlayStart _ => true
  | _ => false
  end.

(** The world with the [disabled] flag of the plugin set to [b]. *)
Definition with_disabled (b : bool) (w : world) : world :=
  with_self {| _last_play := _last_play (self w);
               _callback_url := _callback_url (self w);
               disabled := b |} w.

(** [KeyboardInterrupt]: not an instance of [Exception]. *)
Definition KeyboardInterrupt : exn :=
  {| is_Exception := false; exn_text := "" |}.

(** A transport interrupted during the request. *)
Definition interrupted (now : datetime.t) : env :=
  {| utcnow := now; open_url := fun _ _ _ => Raise KeyboardInterrupt;
     inherited := Sample.callback_base |}.



(** A reading of the clock with microseconds, later the same day. *)
Definition half_past_noon : datetime.t :=
  {| datetime.year := 2024; datetime.month := 1; datetime.day := 1;
     datetime.hour := 12; datetime.minute := 30; datetime.second := 0;
     datetime.microsecond := 250000 |}.
(** * Properties *)

(** ** The trace of events and its projections *)

Lemma warnings_add_event (e : event) (w : world) :
  warnings (add_event e w) =
  warnings w ++ match e with Warned msg => [msg] | _ => [] end.
Proof. unfold warnings. simpl. rewrite omap_app. by destruct e. Qed.

Lemma debugs_add_event (e : event) (w : world) :
  debugs (add_event e w) =
  debugs w ++ match e with Debugged msg => [msg] | _ => [] end.
Proof. unfold debugs. simpl. rewrite omap_app. by destruct e. Qed.

Lemma http_log_add_event (e : event) (w : world) :
  http_log (add_event e w) =
  http_log w ++ match e with Requested call => [call] | _ => [] end.
Proof. unfold http_log. simpl. rewrite omap_app. by destruct e. Qed.

Lemma clock_reads_add_event (e : event) (w : world) :
  clock_reads (add_event e w) =
  clock_reads w ++ match e with ClockRead now => [now] | _ => [] end.
Proof. unfold clock_reads. simpl. rewrite omap_app. by destruct e. Qed.

Lemma envelopes_add_event (e : event) (w : world) :
  envelopes (add_event e w) =
  envelopes w ++ match e with HandedOver msg => [msg] | _ => [] end.
Proof. unfold envelopes. simpl. rewrite omap_app. by destruct e. Qed.

Lemma warnings_with_self s w : warnings (with_self s w) = warnings w.
Proof. reflexivity. Qed.
Lemma warnings_with_store h w : warnings (with_store h w) = warnings w.
Proof. reflexivity. Qed.
Lemma debugs_with_self s w : debugs (with_self s w) = debugs w.
Proof. reflexivity. Qed.
Lemma debugs_with_store h w : debugs (with_store h w) = debugs w.
Proof. reflexivity. Qed.
Lemma http_log_with_self s w : http_log (with_self s w) = http_log w.
Proof. reflexivity. Qed.
Lemma http_log_with_store h w : http_log (with_store h w) = http_log w.
Proof. reflexivity. Qed.
Lemma clock_reads_with_self s w : clock_reads (with_self s w) = clock_reads w.
Proof. reflexivity. Qed.
Lemma clock_reads_with_store h w :
  clock_reads (with_store h w) = clock_reads w.
Proof. reflexivity. Qed.
Lemma envelopes_with_self s w : envelopes (with_self s w) = envelopes w.
Proof. reflexivity. Qed.
Lemma envelopes_with_store h w : envelopes (with_store h w) = envelopes w.
Proof. reflexivity. Qed.

(** Reads the fields and the projections of a world built by the steps of
    a handler. *)
Ltac simpl_world :=
  unfold at_transport_call, at_envelope_ready, add_warning, add_debug,
    add_call, add_clock_read, add_envelope;
  cbn [fst snd];
  rewrite ?warnings_add_event, ?debugs_add_event, ?http_log_add_event,
    ?clock_reads_add_event, ?envelopes_add_event,
    ?warnings_with_self, ?warnings_with_store, ?debugs_with_self,
    ?debugs_with_store, ?http_log_with_self, ?http_log_with_store,
    ?clock_reads_with_self, ?clock_reads_with_store, ?envelopes_with_self,
    ?envelopes_with_store;
  cbn [self store events with_self with_store add_event fst snd];
  rewrite ?app_nil_r.

Ltac run_monad :=
  cbv beta iota zeta
    delta [bind ret raise lift modify get_self put_self get_store put_store
           display_warning display_debug record_call record_clock_read
           record_envelope].

(** ** The delivery client *)

Lemma send_msg_unfold json_dumps E msg w :
  send_msg json_dumps E msg w =
  match json_dumps (store w) msg with
  | Raise e => (Raise e, add_envelope msg w)
  | Return data =>
      let w1 := at_transport_call msg data w in
      match transport E (_callback_url (self w)) data with
      | Return body => (Return (Some body), w1)
      | Raise e =>
          if is_Exception e
          then (Return None, add_warning (webhook_warning e) w1)
          else (Raise e, w1)
      end
  end.
Proof.
  unfold send_msg, transport, at_transport_call, bind, lift, try_except_Exception.
  cbn.
  destruct (json_dumps (store w) msg) as [data|e]; cbn; [|reflexivity].
  destruct (open_url E _ data _) as [resp|e]; cbn.
  - destruct (read resp) as [body|e]; cbn; [reflexivity|].
    destruct (is_Exception e); reflexivity.
  - destruct (is_Exception e); reflexivity.
Qed.

Lemma send_msg_frame json_dumps E msg w :
  let w' := (send_msg json_dumps E msg w).2 in
  self w' = self w /\ store w' = store w /\
  envelopes w' = envelopes w ++ [msg].
Proof.
  rewrite send_msg_unfold.
  destruct (json_dumps (store w) msg) as [data|e]; cbn zeta;
    [|by simpl_world].
  destruct (transport E _ data) as [body|e]; [by simpl_world|].
  destruct (is_Exception e); by simpl_world.
Qed.

Lemma prefix_refl (a : string) : String.prefix a a = true.
Proof.
  induction a as [|c a IH]; simpl; [done|].
  destruct (ascii_dec c c); [exact IH | congruence].
Qed.

Lemma str_contains_prefix (sub s : string) :
  String.prefix sub s = true -> str_contains sub s = true.
Proof.
  intros H. destruct s; unfold str_contains; fold str_contains;
    rewrite H; done.
Qed.

Lemma str_contains_at_end (pre sub : string) :
  str_contains sub (pre +:+ sub) = true.
Proof.
  induction pre as [|c pre IH].
  - change (str_contains sub sub = true).
    apply str_contains_prefix, prefix_refl.
  - change (str_contains sub (String c (pre +:+ sub)) = true).
    unfold str_contains; fold str_contains.
    rewrite IH. apply orb_true_r.
Qed.

(** ** Dictionaries *)

Lemma dict_get_setitem (d : dict) (k k' : string) (v : value) :
  Dict.get (Dict.setitem d k v) k' =
  if String.eqb k k' then Some v else Dict.get d k'.
Proof.
  induction d as [|[k0 v0] d IH]; simpl.
  - done.
  - destruct (String.eqb_spec k0 k) as [->|Hne]; simpl.
    + destruct (String.eqb_spec k k'); done.
    + destruct (String.eqb_spec k0 k') as [->|Hne'].
      * destruct (String.eqb_spec k k'); [congruence | done].
      * exact IH.
Qed.

Lemma dict_keys_setitem (d : dict) (k k' : string) (v : value) :
  k' ∈ Dict.keys (Dict.setitem d k v) <-> k' = k \/ k' ∈ Dict.keys d.
Proof.
  unfold Dict.keys. induction d as [|[k0 v0] d IH]; simpl.
  - rewrite list_elem_of_singleton, elem_of_nil. tauto.
  - destruct (String.eqb_spec k0 k) as [->|Hne]; simpl.
    + rewrite elem_of_cons. tauto.
    + rewrite !elem_of_cons, IH. tauto.
Qed.

(** ** Dictionaries in the store *)

Lemma new_dict_ok (d : dict) (w : world) :
  new_dict d w =
  (Return (fresh (dom (store w))),
   with_store (<[fresh (dom (store w)) := d]> (store w)) w).
Proof. reflexivity. Qed.

Lemma fresh_loc_lookup (h : heap) : h !! fresh (dom h) = None.
Proof. apply not_elem_of_dom, is_fresh. Qed.

Lemma read_dict_ok (l : loc) (d : dict) (w : world) :
  store w !! l = Some d -> read_dict l w = (Return d, w).
Proof. intros H. unfold read_dict. run_monad. rewrite H. reflexivity. Qed.

Lemma read_dict_dangling (l : loc) (w : world) :
  store w !! l = None ->
  read_dict l w = (Raise (KeyError "dangling reference"), w).
Proof. intros H. unfold read_dict. run_monad. rewrite H. reflexivity. Qed.

Lemma dict_copy_ok (l : loc) (d : dict) (w : world) :
  store w !! l = Some d ->
  dict_copy l w =
  (Return (fresh (dom (store w))),
   with_store (<[fresh (dom (store w)) := Dict.copy d]> (store w)) w).
Proof.
  intros H. unfold dict_copy, bind. rewrite (read_dict_ok _ _ _ H).
  apply new_dict_ok.
Qed.

Lemma dict_update_ok (l : loc) (d other : dict) (w : world) :
  store w !! l = Some d ->
  dict_update l other w =
  (Return (), with_store (<[l := Dict.update d other]> (store w)) w).
Proof.
  intros H. unfold dict_update, bind. rewrite (read_dict_ok _ _ _ H).
  reflexivity.
Qed.

Lemma dict_setitem_ok (l : loc) (d : dict) (k : string) (v : value) (w : world) :
  store w !! l = Some d ->
  dict_setitem l k v w =
  (Return (), with_store (<[l := Dict.setitem d k v]> (store w)) w).
Proof.
  intros H. unfold dict_setitem, bind. rewrite (read_dict_ok _ _ _ H).
  reflexivity.
Qed.

(** ** The completion handlers *)

Lemma current_time_ok (E : env) (w : world) :
  current_time E w = (Return (timestamp_at E), at_envelope_ready E w).
Proof. reflexivity. Qed.

Lemma record_task_result_unfold
    json_dumps E on_info result kwargs (w : world) (payload : dict) :
  store w !! TaskResult._result result = Some payload ->
  let l := fresh (dom (store w)) in
  let mapping :=
    Dict.setitem (Dict.update (Dict.copy payload) on_info) "action"
      (VStr (Task.action (TaskResult._task result))) in
  _record_task_result json_dumps E on_info result kwargs w =
  (send_msg json_dumps E
     (task_host_end_envelope (_last_play (self w)) result (timestamp_at E) l) ;;
   ret ())%handler
    (at_envelope_ready E (with_store (<[l := mapping]> (store w)) w)).
Proof.
  intros Hpayload. cbn zeta.
  unfold _record_task_result.
  unfold bind at 1. rewrite (dict_copy_ok _ _ _ Hpayload).
  unfold bind at 1. erewrite dict_update_ok; [|apply lookup_insert_eq].
  unfold bind at 1. erewrite dict_setitem_ok; [|apply lookup_insert_eq].
  unfold bind at 1. unfold get_self at 1.
  unfold bind at 1. rewrite current_time_ok.
  cbn [store self with_store].
  rewrite !insert_insert_eq.
  reflexivity.
Qed.

Lemma deliver_frame json_dumps E msg w :
  let w' := (deliver json_dumps E msg w).2 in
  self w' = self w /\ store w' = store w /\
  envelopes w' = envelopes w ++ [msg].
Proof.
  pose proof (send_msg_frame json_dumps E msg w) as H. cbn zeta in *.
  unfold deliver, bind, ret.
  destruct (send_msg json_dumps E msg w) as [[?|?] w']; exact H.
Qed.

Lemma getattribute_completion inherited (c : completion) :
  __getattribute__ inherited
    match c with
    | Ok => "v2_runner_on_ok"
    | Failed => "v2_runner_on_failed"
    | Skipped => "v2_runner_on_skipped"
    | Unreachable => "v2_runner_on_unreachable"
    end
  = Return (PartialRecordTaskResult (outcome_flags c)).
Proof. destruct c; reflexivity. Qed.

(** Every other name is looked up the ordinary way: the attributes the
    handlers read on [self] among them. *)
Lemma getattribute_passes_through inherited (name : string) :
  str_in name
    ["v2_runner_on_ok"; "v2_runner_on_failed"; "v2_runner_on_unreachable";
     "v2_runner_on_skipped"] = false ->
  __getattribute__ inherited name = object_getattribute inherited name.
Proof. intros H. unfold __getattribute__. by rewrite H. Qed.

Lemma completion_handler_unfold json_dumps E c result kwargs w :
  completion_handler json_dumps E c result kwargs w =
  _record_task_result json_dumps E (outcome_flags c) result kwargs w.
Proof.
  pose proof (getattribute_completion (inherited E) c) as H.
  destruct c; unfold completion_handler, v2_runner_on_ok, v2_runner_on_failed,
    v2_runner_on_skipped, v2_runner_on_unreachable, call_completion, bind, lift;
    rewrite H; reflexivity.
Qed.

Lemma completion_handler_delivers
    json_dumps E c result kwargs (w : world) (payload : dict) :
  store w !! TaskResult._result result = Some payload ->
  let l := fresh (dom (store w)) in
  let mapping :=
    Dict.setitem (Dict.update (Dict.copy payload) (outcome_flags c)) "action"
      (VStr (Task.action (TaskResult._task result))) in
  completion_handler json_dumps E c result kwargs w =
  deliver json_dumps E
    (task_host_end_envelope (_last_play (self w)) result (timestamp_at E) l)
    (at_envelope_ready E (with_store (<[l := mapping]> (store w)) w)).
Proof.
  intros H. cbn zeta. rewrite completion_handler_unfold.
  apply (record_task_result_unfold _ _ _ _ _ _ _ H).
Qed.

Lemma completion_handler_dangling
    json_dumps E c result kwargs (w : world) :
  store w !! TaskResult._result result = None ->
  completion_handler json_dumps E c result kwargs w =
  (Raise (KeyError "dangling reference"), w).
Proof.
  intros H. rewrite completion_handler_unfold.
  unfold _record_task_result, dict_copy.
  unfold bind at 1. unfold bind at 1.
  rewrite (read_dict_dangling _ _ H). reflexivity.
Qed.

Lemma outcome_flags_update (c : completion) (d : dict) (k : string) :
  Dict.get (Dict.update d (outcome_flags c)) k =
  match Dict.get (outcome_flags c) k with
  | Some v => Some v
  | None => Dict.get d k
  end.
Proof.
  destruct c; cbn [outcome_flags Dict.update fold_left fst snd];
    rewrite ?dict_get_setitem; cbn [Dict.get];
    try destruct (String.eqb _ k); reflexivity.
Qed.

Lemma outcome_flags_update_keys (c : completion) (d : dict) (k : string) :
  k ∈ Dict.keys (Dict.update d (outcome_flags c)) <->
  k ∈ Dict.keys d \/ k ∈ Dict.keys (outcome_flags c).
Proof.
  destruct c; cbn [outcome_flags Dict.update fold_left fst snd];
    rewrite ?dict_keys_setitem; unfold Dict.keys; cbn [fmap list_fmap fst];
    rewrite ?list_elem_of_singleton, ?elem_of_nil; tauto.
Qed.

(** ** The order of strings and [sorted] *)

Lemma str_compare_lt_trans (a b c : string) :
  String.compare a b = Lt -> String.compare b c = Lt ->
  String.compare a c = Lt.
Proof.
  revert b c. induction a as [|x a IH]; intros [|y b] [|z c]; simpl;
    try congruence.
  unfold Ascii.compare.
  destruct (N.compare_spec (N_of_ascii x) (N_of_ascii y)) as [Hxy|Hxy|Hxy];
    destruct (N.compare_spec (N_of_ascii y) (N_of_ascii z)) as [Hyz|Hyz|Hyz];
    try congruence; intros H1 H2.
  - rewrite Hxy, Hyz, N.compare_refl. eauto.
  - rewrite Hxy. apply N.compare_lt_iff in Hyz. rewrite Hyz. done.
  - rewrite <- Hyz. apply N.compare_lt_iff in Hxy. rewrite Hxy. done.
  - assert (H : (N_of_ascii x < N_of_ascii z)%N) by lia.
    apply N.compare_lt_iff in H. rewrite H. done.
Qed.

Lemma str_le_cases (a b : string) :
  str_le a b <-> String.compare a b = Lt \/ a = b.
Proof.
  unfold str_le, String.leb. split.
  - destruct (String.compare a b) eqn:H; try done.
    + right. by apply String.compare_eq_iff.
    + by left.
  - intros [->| ->]; [done|].
    destruct (String.compare b b) eqn:H; try done.
    pose proof (String.compare_antisym b b) as Ha. rewrite H in Ha. done.
Qed.

Global Instance str_le_total : Total str_le.
Proof. intros a b. apply String.leb_total. Qed.

Global Instance str_le_trans : Transitive str_le.
Proof.
  intros a b c. rewrite !str_le_cases.
  intros [Hab| ->] [Hbc| ->]; eauto using str_compare_lt_trans.
Qed.

Global Instance str_le_antisym : AntiSymm (=) str_le.
Proof. intros a b. apply String.leb_antisym. Qed.

Lemma sorted_Sorted (l : list string) : Sorted str_le (sorted l).
Proof. apply Sorted_merge_sort, _. Qed.

Lemma sorted_Permutation (l : list string) : sorted l ≡ₚ l.
Proof. apply merge_sort_Permutation. Qed.

Lemma sorted_permutation_eq (l1 l2 : list string) :
  l1 ≡ₚ l2 -> sorted l1 = sorted l2.
Proof.
  intros H. apply (Sorted_unique str_le); try apply sorted_Sorted.
  by rewrite !sorted_Permutation.
Qed.

(** ** The summary of [v2_playbook_on_stats] *)

Lemma dict_setitem_new (d : dict) (k : string) (v : value) :
  k ∉ Dict.keys d -> Dict.setitem d k v = d ++ [(k, v)].
Proof.
  unfold Dict.keys. induction d as [|[k0 v0] d IH]; simpl; [done|].
  rewrite not_elem_of_cons. intros [Hne Hnotin].
  destruct (String.eqb_spec k0 k); [congruence|].
  by rewrite IH.
Qed.

Lemma summary_fold (f : string -> value) (hosts : list string) (d : dict) :
  NoDup hosts -> (forall h, h ∈ hosts -> h ∉ Dict.keys d) ->
  fold_left (fun acc h => Dict.setitem acc h (f h)) hosts d =
  d ++ map (fun h => (h, f h)) hosts.
Proof.
  revert d. induction hosts as [|h hosts IH]; intros d Hnodup Hfresh; simpl.
  - by rewrite app_nil_r.
  - apply NoDup_cons in Hnodup as [Hh Hnodup].
    rewrite dict_setitem_new by (apply Hfresh; left).
    rewrite IH; [by rewrite <- app_assoc | done |].
    intros h' Hh'. unfold Dict.keys. rewrite fmap_app, elem_of_app.
    intros [Hin|Hin].
    + revert Hin. apply Hfresh. by right.
    + apply list_elem_of_singleton in Hin. simpl in Hin. congruence.
Qed.

Lemma summary_keys (f : string -> value) (hosts : list string) :
  Dict.keys (map (fun h => (h, f h)) hosts) = hosts.
Proof.
  unfold Dict.keys. induction hosts as [|h hosts IH]; simpl;
    [done | f_equal; exact IH].
Qed.

Lemma with_store_id (w : world) : with_store (store w) w = w.
Proof. by destruct w. Qed.

Lemma for_each_setitem
    (f : string -> value) (hosts : list string) (l : positive) (d : dict)
    (w : world) :
  store w !! l = Some d ->
  for_each hosts (fun h => let s := f h in dict_setitem l h s) w =
  (Return (),
   with_store
     (<[l := fold_left (fun acc h => Dict.setitem acc h (f h)) hosts d]>
        (store w)) w).
Proof.
  revert d w. induction hosts as [|h hosts IH]; intros d w Hl; simpl.
  - rewrite insert_id by done. by rewrite with_store_id.
  - unfold bind. cbn zeta. rewrite (dict_setitem_ok _ _ _ _ _ Hl).
    erewrite IH by (simpl_world; apply lookup_insert_eq).
    simpl_world. by rewrite insert_insert_eq.
Qed.

Lemma playbook_on_stats_delivers json_dumps E (stats : Stats.t) (w : world) :
  let l := fresh (dom (store w)) in
  let summary :=
    fold_left (fun acc h => Dict.setitem acc h (Stats.summarize stats h))
      (sorted (Dict.keys (Stats.processed stats))) [] in
  v2_playbook_on_stats json_dumps E stats w =
  deliver json_dumps E (playbook_end_envelope (timestamp_at E) l)
    (at_envelope_ready E (with_store (<[l := summary]> (store w)) w)).
Proof.
  cbn zeta. unfold v2_playbook_on_stats.
  unfold bind at 1. rewrite new_dict_ok.
  unfold bind at 1.
  erewrite for_each_setitem by (simpl_world; apply lookup_insert_eq).
  simpl_world. rewrite insert_insert_eq. reflexivity.
Qed.

(** ** Decimal numerals *)

Lemma str_app_cons (x : ascii) (a b : string) :
  String x a +:+ b = String x (a +:+ b).
Proof. reflexivity. Qed.

Lemma str_app_nil_l (a : string) : "" +:+ a = a.
Proof. reflexivity. Qed.

Lemma str_app_assoc (a b c : string) : (a +:+ b) +:+ c = a +:+ (b +:+ c).
Proof.
  induction a as [|x a IH]; [done|]. by rewrite !str_app_cons, IH.
Qed.

Lemma str_app_nil_r (a : string) : a +:+ "" = a.
Proof. induction a as [|x a IH]; [done|]. by rewrite str_app_cons, IH. Qed.

Lemma str_length_app (a b : string) :
  String.length (a +:+ b) = (String.length a + String.length b)%nat.
Proof.
  induction a as [|x a IH]; [done|]. rewrite str_app_cons. simpl.
  by rewrite IH.
Qed.

Lemma all_digits_app (a b : string) :
  all_digits (a +:+ b) = all_digits a && all_digits b.
Proof.
  induction a as [|x a IH]; [done|]. rewrite str_app_cons. simpl.
  by rewrite IH, andb_assoc.
Qed.

Lemma value_from_app (acc : N) (a b : string) :
  value_from acc (a +:+ b) = value_from (value_from acc a) b.
Proof.
  revert acc. induction a as [|x a IH]; intros acc; [done|].
  rewrite str_app_cons. simpl. apply IH.
Qed.

Lemma digit_char_ok (d : N) :
  d < 10 -> is_digit (digit_char d) = true /\ digit_value (digit_char d) = d.
Proof.
  intros Hd. unfold is_digit, digit_value, digit_char.
  rewrite N_ascii_embedding by lia. split; [|lia].
  apply andb_true_intro. split; apply N.leb_le; lia.
Qed.

Lemma decimal_aux_spec (fuel : nat) (n : N) (acc : string) :
  n < 2 ^ N.of_nat fuel ->
  exists ds,
    decimal_aux fuel n acc = ds +:+ acc /\
    all_digits ds = true /\
    (forall a, value_from a ds = a * 10 ^ N.of_nat (String.length ds) + n) /\
    (forall w, n < 10 ^ N.of_nat (S w) -> (String.length ds <= S w)%nat).
Proof.
  revert n acc. induction fuel as [|fuel IH]; intros n acc Hn.
  - exists "". simpl in *. split_and!; [done | done | intros; lia | intros; lia].
  - simpl decimal_aux.
    destruct (digit_char_ok (n mod 10)) as [Hdigit Hvalue].
    { apply N.mod_lt. lia. }
    pose proof (N.div_mod' n 10) as Hdiv.
    destruct (N.eqb_spec (n / 10) 0) as [Hzero|Hnonzero].
    + exists (String (digit_char (n mod 10)) "").
      split_and!.
      * done.
      * simpl. by rewrite Hdigit.
      * intros a. simpl. rewrite Hvalue. lia.
      * intros w _. simpl. lia.
    + destruct (IH (n / 10) (String (digit_char (n mod 10)) acc))
        as (ds & Heq & Hall & Hval & Hlen).
      { apply N.Div0.div_lt_upper_bound.
        rewrite Nat2N.inj_succ, N.pow_succ_r' in Hn. lia. }
      exists (ds +:+ String (digit_char (n mod 10)) "").
      split_and!.
      * rewrite Heq, str_app_assoc, str_app_cons, str_app_nil_l. done.
      * rewrite all_digits_app, Hall. simpl. by rewrite Hdigit.
      * intros a. rewrite value_from_app, Hval. simpl. rewrite Hvalue.
        rewrite str_length_app. simpl String.length.
        replace (String.length ds + 1)%nat with (S (String.length ds)) by lia.
        rewrite Nat2N.inj_succ, N.pow_succ_r'. lia.
      * intros w Hw. rewrite str_length_app. simpl String.length.
        destruct w as [|w].
        { exfalso. apply Hnonzero. apply N.div_small. simpl in Hw. lia. }
        assert (n / 10 < 10 ^ N.of_nat (S w)) as Hw'.
        { apply N.Div0.div_lt_upper_bound.
          rewrite (Nat2N.inj_succ (S w)), N.pow_succ_r' in Hw. lia. }
        specialize (Hlen w Hw'). lia.
Qed.

Lemma decimal_spec (n : N) :
  all_digits (decimal n) = true /\
  value_from 0 (decimal n) = n /\
  (forall w, n < 10 ^ N.of_nat (S w) -> (String.length (decimal n) <= S w)%nat).
Proof.
  unfold decimal.
  destruct (decimal_aux_spec (S (N.to_nat (N.log2 n))) n "")
    as (ds & Heq & Hall & Hval & Hlen).
  { rewrite Nat2N.inj_succ, N2Nat.id.
    destruct (N.eq_dec n 0) as [->|Hn]; [done|].
    apply N.log2_spec. lia. }
  rewrite Heq, str_app_nil_r. split_and!; [done | | done].
  rewrite Hval. lia.
Qed.

Lemma zeros_spec (k : nat) :
  String.length (zeros k) = k /\ all_digits (zeros k) = true /\
  value_from 0 (zeros k) = 0.
Proof.
  induction k as [|k (Hlen & Hall & Hval)]; simpl; [done|].
  rewrite Hlen, Hall. done.
Qed.

Lemma fmt_d_numeral (w : nat) (n : N) :
  n < 10 ^ N.of_nat (S w) -> numeral (S w) n (fmt_d (S w) n).
Proof.
  intros Hn. destruct (decimal_spec n) as (Hall & Hval & Hlen).
  specialize (Hlen w Hn).
  destruct (zeros_spec (S w - String.length (decimal n))) as (Zlen & Zall & Zval).
  unfold numeral, fmt_d. cbn zeta. split_and!.
  - rewrite str_length_app, Zlen. lia.
  - by rewrite all_digits_app, Zall, Hall.
  - by rewrite value_from_app, Zval.
Qed.

Lemma take_digits_from_app (ds rest : string) (acc : N) :
  all_digits ds = true ->
  take_digits_from (String.length ds) acc (ds +:+ rest) =
  Some (value_from acc ds, rest).
Proof.
  revert acc. induction ds as [|c ds IH]; intros acc Hall.
  - done.
  - rewrite str_app_cons. simpl in *.
    apply andb_true_iff in Hall as [Hc Hall]. rewrite Hc. by apply IH.
Qed.

Lemma skip_digits_app (ds rest : string) :
  all_digits ds = true ->
  skip_digits (String.length ds) (ds +:+ rest) = Some rest.
Proof.
  induction ds as [|c ds IH]; intros Hall.
  - done.
  - rewrite str_app_cons. simpl in *.
    apply andb_true_iff in Hall as [Hc Hall]. rewrite Hc. by apply IH.
Qed.

Lemma take_digits_numeral (w : nat) (n : N) (s rest : string) :
  numeral w n s -> take_digits w (s +:+ rest) = Some (n, rest).
Proof.
  intros (<- & Hall & <-). by apply take_digits_from_app.
Qed.

Lemma skip_digits_numeral (w : nat) (n : N) (s rest : string) :
  numeral w n s -> skip_digits w (s +:+ rest) = Some rest.
Proof.
  intros (<- & Hall & _). by apply skip_digits_app.
Qed.

(** ** Timestamps *)

Lemma fmt_d_2 (n : N) : n <= 99 -> numeral 2 n (fmt_d 2 n).
Proof.
  intros H. apply fmt_d_numeral. change (10 ^ N.of_nat 2) with 100. lia.
Qed.

Lemma fmt_d_4 (n : N) : n <= 9999 -> numeral 4 n (fmt_d 4 n).
Proof.
  intros H. apply fmt_d_numeral. change (10 ^ N.of_nat 4) with 10000. lia.
Qed.

Lemma fmt_d_6 (n : N) : n <= 999999 -> numeral 6 n (fmt_d 6 n).
Proof.
  intros H. apply fmt_d_numeral. change (10 ^ N.of_nat 6) with 1000000. lia.
Qed.

Lemma datetime_valid_bounds (d : datetime.t) :
  datetime.valid d = true ->
  datetime.year d <= 9999 /\ datetime.month d <= 12 /\ datetime.day d <= 31 /\
  datetime.hour d <= 23 /\ datetime.minute d <= 59 /\
  datetime.second d <= 59 /\ datetime.microsecond d <= 999999.
Proof.
  unfold datetime.valid. rewrite !andb_true_iff, !N.leb_le. tauto.
Qed.

Lemma datetime_valid_numerals (d : datetime.t) :
  datetime.valid d = true ->
  numeral 4 (datetime.year d) (fmt_d 4 (datetime.year d)) /\
  numeral 2 (datetime.month d) (fmt_d 2 (datetime.month d)) /\
  numeral 2 (datetime.day d) (fmt_d 2 (datetime.day d)) /\
  numeral 2 (datetime.hour d) (fmt_d 2 (datetime.hour d)) /\
  numeral 2 (datetime.minute d) (fmt_d 2 (datetime.minute d)) /\
  numeral 2 (datetime.second d) (fmt_d 2 (datetime.second d)) /\
  numeral 6 (datetime.microsecond d) (fmt_d 6 (datetime.microsecond d)).
Proof.
  intros Hvalid.
  destruct (datetime_valid_bounds d Hvalid) as (Hy & Hmo & Hd & Hh & Hmi & Hs & Hus).
  split_and!; first [apply fmt_d_4 | apply fmt_d_2 | apply fmt_d_6]; lia.
Qed.

Lemma timestamp_shape (d : datetime.t) :
  datetime.isoformat d +:+ "Z" =
  fmt_d 4 (datetime.year d) +:+ String "-" (
  fmt_d 2 (datetime.month d) +:+ String "-" (
  fmt_d 2 (datetime.day d) +:+ String "T" (
  fmt_d 2 (datetime.hour d) +:+ String ":" (
  fmt_d 2 (datetime.minute d) +:+ String ":" (
  fmt_d 2 (datetime.second d) +:+ fraction_and_zone d))))).
Proof.
  unfold datetime.isoformat, fraction_and_zone.
  rewrite !str_app_assoc, !str_app_cons, !str_app_nil_l.
  destruct (datetime.microsecond d =? 0).
  - by rewrite str_app_nil_l.
  - by rewrite ?str_app_assoc, ?str_app_cons, ?str_app_nil_l.
Qed.

Lemma take_char_cons (c : ascii) (s : string) :
  take_char c (String c s) = Some s.
Proof. unfold take_char. by rewrite Ascii.eqb_refl. Qed.

Lemma parse_time_isoformat (d : datetime.t) :
  datetime.valid d = true ->
  parse_time (datetime.isoformat d +:+ "Z") = Some d.
Proof.
  intros Hvalid.
  destruct (datetime_valid_numerals d Hvalid) as (Hy & Hmo & Hd & Hh & Hmi & Hs & Hus).
  rewrite timestamp_shape. unfold parse_time.
  rewrite (take_digits_numeral 4 _ _ _ Hy). cbn [mbind option_bind].
  rewrite take_char_cons. cbn [mbind option_bind].
  rewrite (take_digits_numeral 2 _ _ _ Hmo).
  cbn [mbind option_bind]. rewrite take_char_cons. cbn [mbind option_bind].
  rewrite (take_digits_numeral 2 _ _ _ Hd).
  cbn [mbind option_bind]. rewrite take_char_cons. cbn [mbind option_bind].
  rewrite (take_digits_numeral 2 _ _ _ Hh).
  cbn [mbind option_bind]. rewrite take_char_cons. cbn [mbind option_bind].
  rewrite (take_digits_numeral 2 _ _ _ Hmi).
  cbn [mbind option_bind]. rewrite take_char_cons. cbn [mbind option_bind].
  rewrite (take_digits_numeral 2 _ _ _ Hs).
  cbn [mbind option_bind].
  unfold fraction_and_zone.
  destruct (N.eqb_spec (datetime.microsecond d) 0) as [Hzero|Hnonzero].
  - change (take_char "." "Z") with (@None string). cbn [mbind option_bind].
    change (String.eqb "Z" "Z") with true. cbn iota.
    destruct d; simpl in *; by subst.
  - rewrite take_char_cons.
    rewrite (take_digits_numeral 6 _ _ _ Hus).
    cbn [mbind option_bind].
    change (String.eqb "Z" "Z") with true. cbn iota.
    by destruct d.
Qed.

Lemma timestamp_pattern_isoformat (d : datetime.t) :
  datetime.valid d = true ->
  timestamp_pattern (datetime.isoformat d +:+ "Z") = true.
Proof.
  intros Hvalid.
  destruct (datetime_valid_numerals d Hvalid) as (Hy & Hmo & Hd & Hh & Hmi & Hs & Hus).
  rewrite timestamp_shape. unfold timestamp_pattern.
  rewrite (skip_digits_numeral 4 _ _ _ Hy). cbn [mbind option_bind].
  rewrite take_char_cons. cbn [mbind option_bind].
  rewrite (skip_digits_numeral 2 _ _ _ Hmo).
  cbn [mbind option_bind]. rewrite take_char_cons. cbn [mbind option_bind].
  rewrite (skip_digits_numeral 2 _ _ _ Hd).
  cbn [mbind option_bind]. rewrite take_char_cons. cbn [mbind option_bind].
  rewrite (skip_digits_numeral 2 _ _ _ Hh).
  cbn [mbind option_bind]. rewrite take_char_cons. cbn [mbind option_bind].
  rewrite (skip_digits_numeral 2 _ _ _ Hmi).
  cbn [mbind option_bind]. rewrite take_char_cons. cbn [mbind option_bind].
  rewrite (skip_digits_numeral 2 _ _ _ Hs).
  unfold fraction_and_zone.
  destruct (datetime.microsecond d =? 0).
  - reflexivity.
  - rewrite take_char_cons. cbn [mbind option_bind].
    rewrite (skip_digits_numeral 6 _ _ _ Hus).
    change (String.eqb "Z" "Z") with true. apply orb_true_r.
Qed.

(** ** Every handler ends by delivering its envelope *)

Lemma with_self_id (w : world) : with_self (self w) w = w.
Proof. by destruct w. Qed.

Lemma with_self_with_store (h : gmap positive dict) (w : world) :
  with_self (self w) (with_store h w) = with_store h w.
Proof. by destruct w. Qed.

Lemma notify_delivers json_dumps E (n : notification) (w : world) :
  (self_after n (self w) = self w /\
   notify json_dumps E n w = (Raise (KeyError "dangling reference"), w)) \/
  exists h : gmap positive dict,
    store w ⊆ h /\
    notify json_dumps E n w =
    deliver json_dumps E
      (envelope_of (timestamp_at E) (_last_play (self w))
         (fresh (dom (store w))) n)
      (at_envelope_ready E
         (with_self (self_after n (self w)) (with_store h w))).
Proof.
  assert (Hcompletion : forall c r kw,
    (notify json_dumps E
       match c with
       | Ok => RunnerOk r kw | Failed => RunnerFailed r kw
       | Skipped => RunnerSkipped r kw | Unreachable => RunnerUnreachable r kw
       end w =
     completion_handler json_dumps E c r kw w)) by (by intros []).
  assert (Hresult : forall c r kw,
    (completion_handler json_dumps E c r kw w =
       (Raise (KeyError "dangling reference"), w)) \/
    exists h : gmap positive dict,
      store w ⊆ h /\
      completion_handler json_dumps E c r kw w =
      deliver json_dumps E
        (task_host_end_envelope (_last_play (self w)) r (timestamp_at E)
           (fresh (dom (store w))))
        (at_envelope_ready E (with_self (self w) (with_store h w)))).
  { intros c r kw.
    destruct (store w !! TaskResult._result r) as [payload|] eqn:Hpayload.
    - right. eexists. split; [|rewrite with_self_with_store;
        apply (completion_handler_delivers _ _ _ _ _ _ _ Hpayload)].
      apply insert_subseteq, fresh_loc_lookup.
    - left. by apply completion_handler_dangling. }
  destruct n as [p|host task|task c|task|stats|r kw|r kw|r kw|r kw].
  - right. exists (store w). split; [done|]. by rewrite with_store_id.
  - right. exists (store w). split; [done|]. cbn [self_after].
    by rewrite with_store_id, with_self_id.
  - right. exists (store w). split; [done|]. cbn [self_after].
    by rewrite with_store_id, with_self_id.
  - right. exists (store w). split; [done|]. cbn [self_after].
    by rewrite with_store_id, with_self_id.
  - right. eexists. split; [|cbn [self_after]; rewrite with_self_with_store;
      apply playbook_on_stats_delivers].
    apply insert_subseteq, fresh_loc_lookup.
  - rewrite (Hcompletion Ok). destruct (Hresult Ok r kw); auto.
  - rewrite (Hcompletion Failed). destruct (Hresult Failed r kw); auto.
  - rewrite (Hcompletion Unreachable).
    destruct (Hresult Unreachable r kw); auto.
  - rewrite (Hcompletion Skipped). destruct (Hresult Skipped r kw); auto.
Qed.

Lemma notify_self json_dumps E (n : notification) (w : world) :
  self (notify json_dumps E n w).2 = self_after n (self w).
Proof.
  destruct (notify_delivers json_dumps E n w) as [[Hself ->]|(h & _ & ->)].
  - done.
  - match goal with
    | |- context [deliver ?jd ?E ?msg ?w0] =>
        destruct (deliver_frame jd E msg w0) as (-> & _ & _)
    end. done.
Qed.

Lemma run_last_play json_dumps (steps : list (env * notification)) (w : world) :
  _last_play (self (run json_dumps steps w)) =
  latest_play steps.*2 (_last_play (self w)).
Proof.
  revert w. induction steps as [|[E n] steps IH]; intros w; simpl; [done|].
  rewrite IH, notify_self. by destruct n.
Qed.

Lemma deliver_outcome json_dumps E (msg : dict) (w : world) (data : string) :
  json_dumps (store w) msg = Return data ->
  let w' := (deliver json_dumps E msg w).2 in
  http_log w' =
    http_log w ++
    [{| call_url := _callback_url (self w); call_data := data;
        call_headers := headers_sent |}] /\
  warnings w' =
    warnings w ++ transport_warnings E (_callback_url (self w)) data.
Proof.
  intros Hdata. cbn zeta. unfold deliver, bind, transport_warnings.
  rewrite send_msg_unfold, Hdata. cbn zeta.
  destruct (transport E _ data) as [body|e];
    [by cbv beta iota delta [ret]; simpl_world|].
  destruct (is_Exception e); by cbv beta iota delta [ret]; simpl_world.
Qed.

(** A delivery starts by taking the envelope and reads no clock. *)
Lemma deliver_events json_dumps E (msg : dict) (w : world) :
  let w' := (deliver json_dumps E msg w).2 in
  (exists rest, events w' = events w ++ HandedOver msg :: rest) /\
  clock_reads w' = clock_reads w.
Proof.
  cbn zeta. unfold deliver, bind. rewrite send_msg_unfold.
  destruct (json_dumps (store w) msg) as [data|e]; cbn zeta.
  - destruct (transport E _ data) as [body|e];
      [|destruct (is_Exception e)];
      cbv beta iota delta [ret]; simpl_world;
      (split; [|done]); rewrite <- !app_assoc; eexists; reflexivity.
  - simpl_world. split; [|done]. by exists [].
Qed.

Lemma self_after_configuration (n : notification) (s : CallbackModule) :
  _callback_url (self_after n s) = _callback_url s /\
  disabled (self_after n s) = disabled s.
Proof. by destruct n. Qed.

Lemma snoc_eq_self {A} (l : list A) (x : A) : l <> l ++ [x].
Proof.
  intros H. apply (f_equal length) in H. rewrite length_app in H.
  simpl in H. lia.
Qed.

(** When a notification hands an envelope over, it is the envelope of the
    table, and the world the delivery starts from differs from the world
    before in the plugin object and the store only. *)
Lemma notify_handed_over json_dumps E (n : notification) (w : world) (ev : dict) :
  envelopes (notify json_dumps E n w).2 = envelopes w ++ [ev] ->
  ev = envelope_of (timestamp_at E) (_last_play (self w))
         (fresh (dom (store w))) n /\
  exists h : gmap positive dict,
    notify json_dumps E n w =
    deliver json_dumps E ev
      (at_envelope_ready E
         (with_self (self_after n (self w)) (with_store h w))).
Proof.
  intros Hev.
  destruct (notify_delivers json_dumps E n w) as [[_ Hraise]|(h & _ & Hdeliver)].
  - rewrite Hraise in Hev. simpl in Hev. by apply snoc_eq_self in Hev.
  - rewrite Hdeliver in Hev.
    match type of Hev with
    | context [deliver ?jd ?E ?msg ?w0] =>
        destruct (deliver_frame jd E msg w0) as (_ & _ & Henv)
    end.
    rewrite Henv in Hev. revert Hev. simpl_world. intros Hev.
    apply app_inv_head in Hev. injection Hev as <-.
    split; [done|]. by exists h.
Qed.

(** The clock is read once, just before the envelope is handed over. *)
Lemma notify_trace json_dumps E (n : notification) (w : world) (ev : dict) :
  envelopes (notify json_dumps E n w).2 = envelopes w ++ [ev] ->
  let w' := (notify json_dumps E n w).2 in
  (exists rest,
      events w' = events w ++ ClockRead (utcnow E) :: HandedOver ev :: rest)
  /\ clock_reads w' = clock_reads w ++ [utcnow E].
Proof.
  intros Hev. cbn zeta.
  destruct (notify_handed_over _ _ _ _ _ Hev) as [_ (h & ->)].
  match goal with
  | |- context [deliver ?jd ?E0 ?msg ?w0] =>
      destruct (deliver_events jd E0 msg w0) as [[rest ->] ->]
  end.
  simpl_world. split; [|done].
  exists rest. by rewrite <- app_assoc.
Qed.

Lemma envelope_play_field now play l (n : notification) :
  Dict.get (envelope_of now play l n) "play" = play_field n play.
Proof. by destruct n. Qed.

Lemma envelope_timestamp now play l (n : notification) :
  timestamp_of (envelope_of now play l n) = Some now.
Proof. by destruct n. Qed.

(** ** Setting the options *)


(** An engine that invokes the plugin for every event makes the run of
    the callbacks. *)
Lemma engine_run_invoking_all json_dumps steps (w : world) :
  engine_run (fun _ => true) json_dumps steps w = run json_dumps steps w.
Proof.
  revert w. induction steps as [|[E n] steps IH]; intros w; simpl; [done|].
  apply IH.
Qed.



(** ** Claims on the delivery client *)

(** C2. Whatever the envelope, when the HTTP transport raises an error
    (an instance of [Exception], from [open_url] or from reading the
    response), [send_msg] catches it, logs exactly one warning, whose
    message contains the text of the error, and returns normally with no
    value: nothing is raised to the caller. The whole call is two debug
    lines, the one request and that warning. *)
Theorem send_msg_absorbs_transport_error
    json_dumps E (msg : dict) (w : world) (data : string) (e : exn) :
  json_dumps (store w) msg = Return data ->
  transport E (_callback_url (self w)) data = Raise e ->
  is_Exception e = true ->
  let r := send_msg json_dumps E msg w in
  let call := {| call_url := _callback_url (self w); call_data := data;
                 call_headers := headers_sent |} in
  r.1 = Return None /\
  exists warning,
    str_contains (exn_text e) warning = true /\
    warnings r.2 = warnings w ++ [warning] /\
    http_log r.2 = http_log w ++ [call] /\
    events r.2 =
      events w ++
      [HandedOver msg; Debugged (Some data);
       Debugged (_callback_url (self w)); Requested call; Warned warning].
Proof.
  intros Hdata Htransport Hclass. cbn zeta.
  rewrite send_msg_unfold, Hdata. cbn zeta. rewrite Htransport, Hclass.
  split; [done|].
  exists (webhook_warning e). split_and!.
  - apply str_contains_at_end.
  - by simpl_world.
  - by simpl_world.
  - simpl_world. by rewrite <- !app_assoc.
Qed.

(** C7. When the JSON encoder raises on the envelope, [send_msg] raises
    that same exception, even one of class [Exception]: the serialization
    comes before the guarded region, so nothing has been logged and the
    transport has not been called. The handler that called [send_msg]
    raises it in turn. *)
Theorem send_msg_propagates_serialization_error
    json_dumps E (msg : dict) (w : world) (e : exn) :
  json_dumps (store w) msg = Raise e ->
  let r := send_msg json_dumps E msg w in
  r.1 = Raise e /\
  warnings r.2 = warnings w /\ debugs r.2 = debugs w /\
  http_log r.2 = http_log w /\
  events r.2 = events w ++ [HandedOver msg] /\
  deliver json_dumps E msg w = (Raise e, r.2).
Proof.
  intros Hdata. cbn zeta. unfold deliver, bind.
  rewrite send_msg_unfold, Hdata.
  split_and!; by simpl_world.
Qed.

Lemma send_msg_absorbs_transport_error_witness :
  let w := Sample.configured in
  let r := send_msg Sample.keys_encoder
             (Sample.unreachable_webhook Sample.midnight)
             [("type", VStr "play_start")] w in
  let call := {| call_url := Some "http://hook.example/events";
                 call_data := "type"; call_headers := headers_sent |} in
  r.1 = Return None /\
  exists warning,
    str_contains "connection refused" warning = true /\
    warnings r.2 = warnings w ++ [warning] /\
    http_log r.2 = http_log w ++ [call] /\
    events r.2 =
      events w ++
      [HandedOver [("type", VStr "play_start")]; Debugged (Some "type");
       Debugged (Some "http://hook.example/events"); Requested call;
       Warned warning].
Proof.
  apply (send_msg_absorbs_transport_error Sample.keys_encoder
           (Sample.unreachable_webhook Sample.midnight)
           [("type", VStr "play_start")] Sample.configured "type"
           (Sample.ValueError "connection refused"));
    reflexivity.
Defined.

Lemma send_msg_propagates_serialization_error_witness :
  let w := Sample.configured in
  let r := send_msg Sample.failing_encoder
             (Sample.accepting Sample.midnight)
             [("type", VStr "play_start")] w in
  r.1 = Raise (Sample.TypeError "Object of type Host is not JSON serializable")
  /\ warnings r.2 = warnings w
  /\ debugs r.2 = debugs w
  /\ http_log r.2 = http_log w
  /\ events r.2 = events w ++ [HandedOver [("type", VStr "play_start")]]
  /\ deliver Sample.failing_encoder (Sample.accepting Sample.midnight)
       [("type", VStr "play_start")] w =
     (Raise (Sample.TypeError "Object of type Host is not JSON serializable"),
      r.2).
Proof.
  apply (send_msg_propagates_serialization_error Sample.failing_encoder
           (Sample.accepting Sample.midnight)
           [("type", VStr "play_start")] Sample.configured).
  reflexivity.
Defined.

(** ** Claims on the completion handlers *)

(** C1. For each of the four completion callbacks, the envelope handed to
    the delivery client refers, under [result], to a new mapping that is
    the copy of the engine's payload updated with the outcome flags of the
    table ([ok], [failed] or [skipped] set to true; nothing for
    [unreachable]) and then with [action], the task's action module: the
    mapping reads the action under [action], true under the flag, and the
    payload's value under every other key, and it has no key besides those
    of the payload, the flag and [action]. *)
Theorem completion_result_mapping
    json_dumps E (c : completion) (result : TaskResult.t) (kwargs : dict)
    (w : world) (payload : dict) :
  store w !! TaskResult._result result = Some payload ->
  let w' := (completion_handler json_dumps E c result kwargs w).2 in
  let action := VStr (Task.action (TaskResult._task result)) in
  exists (l : positive) (mapping : dict),
    envelopes w' =
      envelopes w ++
      [task_host_end_envelope (_last_play (self w)) result (timestamp_at E) l]
    /\ store w !! l = None
    /\ store w' !! l = Some mapping
    /\ mapping =
         Dict.setitem (Dict.update (Dict.copy payload) (outcome_flags c))
           "action" action
    /\ (forall k,
          Dict.get mapping k =
          if String.eqb "action" k then Some action
          else match Dict.get (outcome_flags c) k with
               | Some flag => Some flag
               | None => Dict.get payload k
               end)
    /\ (forall k,
          k ∈ Dict.keys mapping <->
          k ∈ Dict.keys payload \/ k ∈ Dict.keys (outcome_flags c) \/
          k = "action").
Proof.
  intros Hpayload. cbn zeta.
  rewrite (completion_handler_delivers _ _ c _ kwargs _ _ Hpayload).
  set (l := fresh (dom (store w))).
  set (mapping := Dict.setitem _ _ _).
  match goal with
  | |- context [deliver ?jd ?E0 ?msg ?w0] =>
      destruct (deliver_frame jd E0 msg w0) as (_ & Hstore & Henv)
  end.
  exists l, mapping. split_and!.
  - rewrite Henv. by simpl_world.
  - apply fresh_loc_lookup.
  - rewrite Hstore. simpl_world. apply lookup_insert_eq.
  - reflexivity.
  - intros k. subst mapping. rewrite dict_get_setitem.
    destruct (String.eqb "action" k); [done|].
    apply outcome_flags_update.
  - intros k. subst mapping.
    rewrite dict_keys_setitem, outcome_flags_update_keys.
    unfold Dict.copy. tauto.
Qed.

Lemma completion_result_mapping_witness :
  store Sample.configured !! 1%positive = Some Sample.payload /\
  let json_dumps := Sample.keys_encoder in
  let E := Sample.accepting Sample.midnight in
  let w' := (completion_handler json_dumps E Failed Sample.result []
               Sample.configured).2 in
  let action := VStr "ansible.builtin.copy" in
  exists (l : positive) (mapping : dict),
    envelopes w' =
      envelopes Sample.configured ++
      [task_host_end_envelope None Sample.result (timestamp_at E) l]
    /\ store Sample.configured !! l = None
    /\ store w' !! l = Some mapping
    /\ mapping =
         Dict.setitem
           (Dict.update (Dict.copy Sample.payload) [("failed", VBool true)])
           "action" action
    /\ (forall k,
          Dict.get mapping k =
          if String.eqb "action" k then Some action
          else match Dict.get [("failed", VBool true)] k with
               | Some flag => Some flag
               | None => Dict.get Sample.payload k
               end)
    /\ (forall k,
          k ∈ Dict.keys mapping <->
          k ∈ Dict.keys Sample.payload \/
          k ∈ Dict.keys [("failed", VBool true)] \/ k = "action").
Proof.
  split; [reflexivity|].
  apply (completion_result_mapping Sample.keys_encoder
           (Sample.accepting Sample.midnight) Failed Sample.result []
           Sample.configured Sample.payload).
  reflexivity.
Defined.

(** C9. Each completion handler that attribute interception synthesizes
    behaves, on every result, keyword arguments and world, exactly as the
    explicit function that calls the shared completion builder with that
    outcome's flags from the table: same outcome, same envelope, same
    world. *)
Theorem interception_refines_explicit_table
    json_dumps E (result : TaskResult.t) (kwargs : dict) (w : world) :
  v2_runner_on_ok json_dumps E result kwargs w =
    explicit_v2_runner_on_ok json_dumps E result kwargs w /\
  v2_runner_on_failed json_dumps E result kwargs w =
    explicit_v2_runner_on_failed json_dumps E result kwargs w /\
  v2_runner_on_skipped json_dumps E result kwargs w =
    explicit_v2_runner_on_skipped json_dumps E result kwargs w /\
  v2_runner_on_unreachable json_dumps E result kwargs w =
    explicit_v2_runner_on_unreachable json_dumps E result kwargs w.
Proof.
  split_and!.
  - apply (completion_handler_unfold json_dumps E Ok).
  - apply (completion_handler_unfold json_dumps E Failed).
  - apply (completion_handler_unfold json_dumps E Skipped).
  - apply (completion_handler_unfold json_dumps E Unreachable).
Qed.

(** C10. A completion handler works on a copy: the engine's own result
    mapping holds after the handler what it held before, as does every
    other dictionary of the store, and the mapping the envelope refers to
    is another object, which did not exist before. *)
Theorem completion_leaves_engine_result
    json_dumps E (c : completion) (result : TaskResult.t) (kwargs : dict)
    (w : world) (payload : dict) :
  store w !! TaskResult._result result = Some payload ->
  let w' := (completion_handler json_dumps E c result kwargs w).2 in
  store w' !! TaskResult._result result = Some payload /\
  store w ⊆ store w' /\
  exists (l : positive) (envelope : dict),
    last (envelopes w') = Some envelope /\
    Dict.get envelope "result" = Some (VRef l) /\
    l <> TaskResult._result result /\
    store w !! l = None.
Proof.
  intros Hpayload. cbn zeta.
  rewrite (completion_handler_delivers _ _ c _ kwargs _ _ Hpayload).
  set (l := fresh (dom (store w))).
  set (mapping := Dict.setitem _ _ _).
  match goal with
  | |- context [deliver ?jd ?E0 ?msg ?w0] =>
      destruct (deliver_frame jd E0 msg w0) as (_ & Hstore & Henv)
  end.
  assert (Hfresh : store w !! l = None) by apply fresh_loc_lookup.
  assert (Hne : l <> TaskResult._result result) by congruence.
  rewrite Hstore, Henv. simpl_world. split_and!.
  - rewrite lookup_insert_ne; done.
  - apply insert_subseteq. exact Hfresh.
  - exists l, (task_host_end_envelope (_last_play (self w)) result
                 (timestamp_at E) l).
    rewrite last_snoc. done.
Qed.

Lemma completion_leaves_engine_result_witness :
  store Sample.configured !! 1%positive = Some Sample.payload /\
  let w' := (completion_handler Sample.keys_encoder
               (Sample.accepting Sample.midnight) Failed Sample.result []
               Sample.configured).2 in
  store w' !! 1%positive = Some Sample.payload /\
  store Sample.configured ⊆ store w' /\
  exists (l : positive) (envelope : dict),
    last (envelopes w') = Some envelope /\
    Dict.get envelope "result" = Some (VRef l) /\
    l <> 1%positive /\
    store Sample.configured !! l = None.
Proof.
  split; [reflexivity|].
  apply (completion_leaves_engine_result Sample.keys_encoder
           (Sample.accepting Sample.midnight) Failed Sample.result []
           Sample.configured Sample.payload).
  reflexivity.
Defined.

(** ** Claims on the end-of-run summary *)

(** C4. Whatever hosts were processed, the [playbook_end] envelope refers,
    under [result], to a new mapping built by going through the host names
    in ascending order and giving each its summary: the keys of the mapping
    are the sorted host names, in that order, and two runs over the same
    set of hosts with the same summaries produce the same mapping, whatever
    the order in which the engine met the hosts. *)
Theorem playbook_end_hosts_sorted json_dumps E (stats : Stats.t) (w : world) :
  NoDup (Dict.keys (Stats.processed stats)) ->
  let w' := (v2_playbook_on_stats json_dumps E stats w).2 in
  let hosts := sorted (Dict.keys (Stats.processed stats)) in
  exists (l : positive) (summary : dict),
    envelopes w' = envelopes w ++ [playbook_end_envelope (timestamp_at E) l]
    /\ store w !! l = None
    /\ store w' !! l = Some summary
    /\ summary = map (fun h => (h, Stats.summarize stats h)) hosts
    /\ Dict.keys summary = hosts
    /\ Sorted str_le (Dict.keys summary)
    /\ Dict.keys summary ≡ₚ Dict.keys (Stats.processed stats)
    /\ (forall stats' w0,
          Dict.keys (Stats.processed stats') ≡ₚ
            Dict.keys (Stats.processed stats) ->
          Stats.summarize stats' = Stats.summarize stats ->
          store w0 = store w ->
          store (v2_playbook_on_stats json_dumps E stats' w0).2 !! l =
          Some summary).
Proof.
  intros Hnodup. cbn zeta.
  set (hosts := sorted (Dict.keys (Stats.processed stats))).
  set (l := fresh (dom (store w))).
  assert (Hsummary : forall st : Stats.t,
             Dict.keys (Stats.processed st) ≡ₚ
               Dict.keys (Stats.processed stats) ->
             Stats.summarize st = Stats.summarize stats ->
             fold_left
               (fun acc h => Dict.setitem acc h (Stats.summarize st h))
               (sorted (Dict.keys (Stats.processed st))) [] =
             map (fun h => (h, Stats.summarize stats h)) hosts).
  { intros st Hperm Hsum.
    rewrite (sorted_permutation_eq _ _ Hperm), Hsum. fold hosts.
    rewrite summary_fold; [done| |].
    - unfold hosts. rewrite sorted_Permutation. done.
    - intros h _. unfold Dict.keys. simpl. apply not_elem_of_nil. }
  assert (Hkeys : Dict.keys (map (fun h => (h, Stats.summarize stats h)) hosts)
                  = hosts).
  { apply summary_keys. }
  assert (Hsorted :
            Sorted str_le
              (Dict.keys (map (fun h => (h, Stats.summarize stats h)) hosts)))
    by (rewrite Hkeys; apply sorted_Sorted).
  assert (Hperm :
            Dict.keys (map (fun h => (h, Stats.summarize stats h)) hosts) ≡ₚ
            Dict.keys (Stats.processed stats))
    by (rewrite Hkeys; apply sorted_Permutation).
  exists l, (map (fun h => (h, Stats.summarize stats h)) hosts).
  rewrite playbook_on_stats_delivers. fold l.
  rewrite (Hsummary stats) by done.
  match goal with
  | |- context [deliver ?jd ?E ?msg ?w0] =>
      destruct (deliver_frame jd E msg w0) as (_ & Hstore & Henv)
  end.
  split_and!.
  - rewrite Henv. by simpl_world.
  - apply fresh_loc_lookup.
  - rewrite Hstore. simpl_world. apply lookup_insert_eq.
  - reflexivity.
  - exact Hkeys.
  - exact Hsorted.
  - exact Hperm.
  - intros stats' w0 Hperm' Hsum Hw0.
    rewrite playbook_on_stats_delivers.
    match goal with
    | |- context [deliver ?jd ?E ?msg ?w1] =>
        destruct (deliver_frame jd E msg w1) as (_ & Hstore' & _)
    end.
    rewrite Hstore'. simpl_world. rewrite Hw0. fold l.
    rewrite (Hsummary stats') by done. apply lookup_insert_eq.
Qed.

Lemma playbook_end_hosts_sorted_witness :
  NoDup ["web2"; "db"; "web1"] /\
  let json_dumps := Sample.keys_encoder in
  let E := Sample.accepting Sample.midnight in
  let w := Sample.configured in
  let w' := (v2_playbook_on_stats json_dumps E Sample.stats w).2 in
  let hosts := sorted ["web2"; "db"; "web1"] in
  exists (l : positive) (summary : dict),
    envelopes w' = envelopes w ++ [playbook_end_envelope (timestamp_at E) l]
    /\ store w !! l = None
    /\ store w' !! l = Some summary
    /\ summary = map (fun h => (h, Stats.summarize Sample.stats h)) hosts
    /\ Dict.keys summary = hosts
    /\ Sorted str_le (Dict.keys summary)
    /\ Dict.keys summary ≡ₚ ["web2"; "db"; "web1"]
    /\ (forall stats' w0,
          Dict.keys (Stats.processed stats') ≡ₚ ["web2"; "db"; "web1"] ->
          Stats.summarize stats' = Stats.summarize Sample.stats ->
          store w0 = store w ->
          store (v2_playbook_on_stats json_dumps E stats' w0).2 !! l =
          Some summary).
Proof.
  assert (H : NoDup ["web2"; "db"; "web1"]).
  { repeat (apply NoDup_cons; split;
            [rewrite ?elem_of_cons, elem_of_nil; intros H;
             repeat destruct H as [H|H]; discriminate || done|]).
    apply NoDup_nil. done. }
  split; [exact H|].
  apply (playbook_end_hosts_sorted Sample.keys_encoder
           (Sample.accepting Sample.midnight) Sample.stats Sample.configured).
  exact H.
Defined.

(** ** Claims on the current play *)

(** C5, as amended. Only the play-start handler writes the current-play
    field, and it writes the identifier of the play that starts; every
    other handler leaves the plugin object as it was. The handlers of
    task events (host start, task start, handler start and the four
    completions) put the current value of the field under [play] in their
    envelope, [None] as long as no play has started; the [play_start] and
    [playbook_end] envelopes have no [play] field. So, along a run, the
    field holds the identifier of the play started last, and that is what
    the envelope of a task event carries. *)
Theorem last_play_written_by_play_start_only json_dumps :
  (forall E n w,
      self (notify json_dumps E n w).2 = self_after n (self w)) /\
  (forall E n w ev,
      envelopes (notify json_dumps E n w).2 = envelopes w ++ [ev] ->
      Dict.get ev "play" = play_field n (_last_play (self w))) /\
  (forall steps w,
      _last_play (self (run json_dumps steps w)) =
      latest_play steps.*2 (_last_play (self w))) /\
  (forall steps E n w ev,
      let w1 := run json_dumps steps w in
      envelopes (notify json_dumps E n w1).2 = envelopes w1 ++ [ev] ->
      Dict.get ev "play" =
      play_field n (latest_play steps.*2 (_last_play (self w)))).
Proof.
  assert (Hfield : forall E n w ev,
            envelopes (notify json_dumps E n w).2 = envelopes w ++ [ev] ->
            Dict.get ev "play" = play_field n (_last_play (self w))).
  { intros E n w ev Hev.
    destruct (notify_handed_over _ _ _ _ _ Hev) as [-> _].
    apply envelope_play_field. }
  split_and!.
  - intros E n w. apply notify_self.
  - exact Hfield.
  - intros steps w. apply run_last_play.
  - intros steps E n w ev w1 Hev.
    rewrite <- (run_last_play json_dumps). by apply (Hfield E).
Qed.

Lemma last_play_written_by_play_start_only_witness :
  let json_dumps := Sample.keys_encoder in
  let E := Sample.accepting Sample.just_after_midnight in
  let steps :=
    [(Sample.accepting Sample.midnight, PlayStart Sample.deploy);
     (E, RunnerStart Sample.web1 Sample.t1)] in
  let w1 := run json_dumps steps Sample.configured in
  let ev :=
    task_host_end_envelope (Some "abc-123") Sample.result
      "2024-01-01T00:00:00.000001Z" 2%positive in
  envelopes (notify json_dumps E (RunnerFailed Sample.result []) w1).2 =
    envelopes w1 ++ [ev] /\
  Dict.get ev "play" = Some (VStr "abc-123").
Proof.
  assert (Hev :
    envelopes
      (notify Sample.keys_encoder
         (Sample.accepting Sample.just_after_midnight)
         (RunnerFailed Sample.result [])
         (run Sample.keys_encoder
            [(Sample.accepting Sample.midnight, PlayStart Sample.deploy);
             (Sample.accepting Sample.just_after_midnight,
              RunnerStart Sample.web1 Sample.t1)] Sample.configured)).2 =
    envelopes
      (run Sample.keys_encoder
         [(Sample.accepting Sample.midnight, PlayStart Sample.deploy);
          (Sample.accepting Sample.just_after_midnight,
           RunnerStart Sample.web1 Sample.t1)] Sample.configured) ++
    [task_host_end_envelope (Some "abc-123") Sample.result
       "2024-01-01T00:00:00.000001Z" 2%positive]) by reflexivity.
  split; [exact Hev|].
  destruct (last_play_written_by_play_start_only Sample.keys_encoder)
    as (_ & _ & _ & Hrun).
  exact (Hrun _ _ _ _ _ Hev).
Defined.

(** ** Claims on the play-start envelope *)

(** C8, as amended. For every play-start notification, the envelope handed
    over has exactly the keys [type], [id], [start] and [name], in that
    order: [play_start], the play's uuid (which also becomes the current
    play), the timestamp of the moment and the play's name; when the
    encoder renders it, its rendering is posted to the configured URL.
    Play [deploy] with uuid [abc-123], at midnight of 2024-01-01, gives the
    start [2024-01-01T00:00:00Z]: [isoformat] drops the fraction when the
    microseconds are zero, and no reading of the clock gives
    [2024-01-01T00:00:00.000000Z]. *)
Theorem play_start_envelope json_dumps E (play : Play.t) (w : world) :
  let w' := (v2_playbook_on_play_start json_dumps E play w).2 in
  let ev :=
    [("type", VStr "play_start"); ("id", VStr (Play._uuid play));
     ("start", VStr (timestamp_at E)); ("name", VStr (Play.get_name play))] in
  envelopes w' = envelopes w ++ [ev] /\
  Dict.keys ev = ["type"; "id"; "start"; "name"] /\
  _last_play (self w') = Some (Play._uuid play) /\
  (exists rest,
      events w' = events w ++ ClockRead (utcnow E) :: HandedOver ev :: rest) /\
  (forall data,
      json_dumps (store w) ev = Return data ->
      http_log w' =
      http_log w ++
      [{| call_url := _callback_url (self w); call_data := data;
          call_headers := headers_sent |}]) /\
  (utcnow E = Sample.midnight -> play = Sample.deploy ->
   ev = [("type", VStr "play_start"); ("id", VStr "abc-123");
         ("start", VStr "2024-01-01T00:00:00Z"); ("name", VStr "deploy")]) /\
  (datetime.valid (utcnow E) = true ->
   timestamp_at E <> "2024-01-01T00:00:00.000000Z").
Proof.
  cbn zeta.
  set (ev := [("type", VStr "play_start"); ("id", VStr (Play._uuid play));
              ("start", VStr (timestamp_at E));
              ("name", VStr (Play.get_name play))]).
  set (w0 := at_envelope_ready E
               (with_self
                  {| _last_play := Some (Play._uuid play);
                     _callback_url := _callback_url (self w);
                     disabled := disabled (self w) |} w)).
  assert (Hdeliver : v2_playbook_on_play_start json_dumps E play w =
                     deliver json_dumps E ev w0) by reflexivity.
  rewrite Hdeliver.
  destruct (deliver_frame json_dumps E ev w0) as (Hself & Hstore & Henv).
  split_and!.
  - rewrite Henv. unfold w0. by simpl_world.
  - reflexivity.
  - by rewrite Hself.
  - destruct (deliver_events json_dumps E ev w0) as [[rest ->] _].
    exists rest. unfold w0. simpl_world. by rewrite <- app_assoc.
  - intros data Hdata.
    destruct (deliver_outcome json_dumps E ev w0 data Hdata) as [Hlog _].
    rewrite Hlog. unfold w0. by simpl_world.
  - intros Hnow ->. unfold ev, timestamp_at. rewrite Hnow. reflexivity.
  - intros Hvalid Heq.
    pose proof (parse_time_isoformat _ Hvalid) as Hparse.
    unfold timestamp_at in Heq. rewrite Heq in Hparse.
    assert (Hmidnight : utcnow E = Sample.midnight).
    { vm_compute in Hparse. by injection Hparse. }
    rewrite Hmidnight in Heq. vm_compute in Heq. discriminate Heq.
Qed.

Lemma play_start_envelope_witness :
  let E := Sample.accepting Sample.midnight in
  let ev :=
    [("type", VStr "play_start"); ("id", VStr "abc-123");
     ("start", VStr (timestamp_at E)); ("name", VStr "deploy")] in
  ev = [("type", VStr "play_start"); ("id", VStr "abc-123");
        ("start", VStr "2024-01-01T00:00:00Z"); ("name", VStr "deploy")] /\
  timestamp_at E <> "2024-01-01T00:00:00.000000Z".
Proof.
  destruct (play_start_envelope Sample.keys_encoder
              (Sample.accepting Sample.midnight) Sample.deploy
              Sample.configured)
    as (_ & _ & _ & _ & _ & Hexample & Hnever).
  split; [exact (Hexample eq_refl eq_refl) | exact (Hnever eq_refl)].
Defined.

(** The example of the claim C8 does not hold as written: at that instant
    the start of the envelope is [2024-01-01T00:00:00Z], without the
    fraction. *)
Lemma play_start_example_differs :
  let w' := (v2_playbook_on_play_start Sample.keys_encoder
               (Sample.accepting Sample.midnight) Sample.deploy
               Sample.configured).2 in
  envelopes w' =
    [[("type", VStr "play_start"); ("id", VStr "abc-123");
      ("start", VStr "2024-01-01T00:00:00Z"); ("name", VStr "deploy")]] /\
  envelopes w' <>
    [[("type", VStr "play_start"); ("id", VStr "abc-123");
      ("start", VStr "2024-01-01T00:00:00.000000Z");
      ("name", VStr "deploy")]].
Proof. split; [reflexivity | discriminate]. Qed.

(** The claim C5 does not hold of the end-of-run handler: with a play
    started, its envelope has no [play] field. *)
Lemma playbook_end_has_no_play_field :
  let json_dumps := Sample.keys_encoder in
  let E := Sample.accepting Sample.midnight in
  let w1 := (notify json_dumps E (PlayStart Sample.deploy)
               Sample.configured).2 in
  let w2 := (notify json_dumps E (PlaybookStats Sample.stats) w1).2 in
  _last_play (self w1) = Some "abc-123" /\
  _last_play (self w2) = Some "abc-123" /\
  last (envelopes w2) =
    Some (playbook_end_envelope "2024-01-01T00:00:00Z" 2%positive) /\
  Dict.get (playbook_end_envelope "2024-01-01T00:00:00Z" 2%positive) "play"
    = None /\
  Dict.keys (playbook_end_envelope "2024-01-01T00:00:00Z" 2%positive)
    = ["type"; "end"; "result"].
Proof. repeat split. Qed.

(** ** Claims on the timestamps *)

(** C6, as amended. The timestamp of every envelope (its [start], else
    its [end]) is made when the envelope is built: the handler reads the
    UTC clock once, just before it hands the envelope over, and the
    timestamp is that reading in ISO 8601 with a [Z] appended. It matches
    [YYYY-MM-DDTHH:MM:SS(.ffffff)?Z] and denotes the reading exactly. So,
    across two events in sequence, the instants the timestamps denote are
    non-decreasing exactly when the readings of the clock are; the handlers
    do nothing to make them so. *)
Theorem timestamps_follow_the_clock
    json_dumps E1 n1 E2 n2 (w : world) (ev1 ev2 : dict) :
  datetime.valid (utcnow E1) = true ->
  datetime.valid (utcnow E2) = true ->
  let w1 := (notify json_dumps E1 n1 w).2 in
  let w2 := (notify json_dumps E2 n2 w1).2 in
  envelopes w1 = envelopes w ++ [ev1] ->
  envelopes w2 = envelopes w1 ++ [ev2] ->
  exists ts1 ts2,
    timestamp_of ev1 = Some ts1 /\ timestamp_of ev2 = Some ts2 /\
    ts1 = datetime.isoformat (utcnow E1) +:+ "Z" /\
    ts2 = datetime.isoformat (utcnow E2) +:+ "Z" /\
    (exists rest,
        events w1 =
        events w ++ ClockRead (utcnow E1) :: HandedOver ev1 :: rest) /\
    (exists rest,
        events w2 =
        events w1 ++ ClockRead (utcnow E2) :: HandedOver ev2 :: rest) /\
    clock_reads w2 = clock_reads w ++ [utcnow E1; utcnow E2] /\
    timestamp_pattern ts1 = true /\ timestamp_pattern ts2 = true /\
    parse_time ts1 = Some (utcnow E1) /\
    parse_time ts2 = Some (utcnow E2) /\
    instants_nondecreasing ts1 ts2 = datetime.le (utcnow E1) (utcnow E2).
Proof.
  intros Hvalid1 Hvalid2 w1 w2 Hev1 Hev2.
  destruct (notify_trace _ _ _ _ _ Hev1) as [Htrace1 Hclock1].
  destruct (notify_trace _ _ _ _ _ Hev2) as [Htrace2 Hclock2].
  destruct (notify_handed_over _ _ _ _ _ Hev1) as [-> _].
  destruct (notify_handed_over _ _ _ _ _ Hev2) as [-> _].
  exists (timestamp_at E1), (timestamp_at E2).
  rewrite !envelope_timestamp. unfold instants_nondecreasing, timestamp_at.
  rewrite !parse_time_isoformat, !timestamp_pattern_isoformat by done.
  split_and!; try done.
  fold w1 in Hclock1, Hclock2. fold w2 in Hclock2.
  by rewrite Hclock2, Hclock1, <- app_assoc.
Qed.

Lemma timestamps_follow_the_clock_witness :
  let json_dumps := Sample.keys_encoder in
  let E1 := Sample.accepting Sample.midnight in
  let E2 := Sample.accepting Sample.just_after_midnight in
  let w := Sample.configured in
  let w1 := (notify json_dumps E1 (PlayStart Sample.deploy) w).2 in
  let w2 := (notify json_dumps E2 (TaskStart Sample.t1 false) w1).2 in
  let ev1 :=
    envelope_of "2024-01-01T00:00:00Z" None 2%positive
      (PlayStart Sample.deploy) in
  let ev2 :=
    envelope_of "2024-01-01T00:00:00.000001Z" (Some "abc-123") 2%positive
      (TaskStart Sample.t1 false) in
  exists ts1 ts2,
    timestamp_of ev1 = Some ts1 /\ timestamp_of ev2 = Some ts2 /\
    ts1 = datetime.isoformat (utcnow E1) +:+ "Z" /\
    ts2 = datetime.isoformat (utcnow E2) +:+ "Z" /\
    (exists rest,
        events w1 =
        events w ++ ClockRead (utcnow E1) :: HandedOver ev1 :: rest) /\
    (exists rest,
        events w2 =
        events w1 ++ ClockRead (utcnow E2) :: HandedOver ev2 :: rest) /\
    clock_reads w2 = clock_reads w ++ [utcnow E1; utcnow E2] /\
    timestamp_pattern ts1 = true /\ timestamp_pattern ts2 = true /\
    parse_time ts1 = Some (utcnow E1) /\
    parse_time ts2 = Some (utcnow E2) /\
    instants_nondecreasing ts1 ts2 = datetime.le (utcnow E1) (utcnow E2).
Proof.
  apply (timestamps_follow_the_clock Sample.keys_encoder
           (Sample.accepting Sample.midnight) (PlayStart Sample.deploy)
           (Sample.accepting Sample.just_after_midnight)
           (TaskStart Sample.t1 false) Sample.configured);
    reflexivity.
Defined.

(** The claim C6 does not hold as written. When the clock is set back
    between two events, the second timestamp denotes an earlier instant
    than the first. And when the clock goes forward from a reading with
    zero microseconds, the second timestamp comes before the first in the
    order of strings, since the first has no fraction. *)
Lemma timestamps_can_decrease :
  let json_dumps := Sample.keys_encoder in
  let early := Sample.accepting Sample.midnight in
  let late := Sample.accepting Sample.just_after_midnight in
  let set_back :=
    run json_dumps
      [(late, PlayStart Sample.deploy); (early, TaskStart Sample.t1 false)]
      Sample.configured in
  let forward :=
    run json_dumps
      [(early, PlayStart Sample.deploy); (late, TaskStart Sample.t1 false)]
      Sample.configured in
  map timestamp_of (envelopes set_back) =
    [Some "2024-01-01T00:00:00.000001Z"; Some "2024-01-01T00:00:00Z"] /\
  instants_nondecreasing
    "2024-01-01T00:00:00.000001Z" "2024-01-01T00:00:00Z" = false /\
  map timestamp_of (envelopes forward) =
    [Some "2024-01-01T00:00:00Z"; Some "2024-01-01T00:00:00.000001Z"] /\
  datetime.le Sample.midnight Sample.just_after_midnight = true /\
  String.leb "2024-01-01T00:00:00Z" "2024-01-01T00:00:00.000001Z" = false.
Proof. repeat split. Qed.

(** ** Claims on the disabled state *)



(** * Further properties of the plugin *)

(** ** The delivery client *)

(** X1. A delivery that goes through: when the encoder renders the
    envelope and the transport answers, [send_msg] returns the body read
    from the response and logs no warning; it has written two debug lines
    (the data, then the URL) and made one request, to the configured URL,
    with the data as body and the JSON content type as only header. *)
Theorem send_msg_returns_body
    json_dumps E (msg : dict) (w : world) (data body : string) :
  json_dumps (store w) msg = Return data ->
  transport E (_callback_url (self w)) data = Return body ->
  let r := send_msg json_dumps E msg w in
  r.1 = Return (Some body) /\
  warnings r.2 = warnings w /\
  http_log r.2 = http_log w ++ [request_of w data] /\
  call_headers (request_of w data) = [("Content-type", "application/json")] /\
  events r.2 =
    events w ++
    [HandedOver msg; Debugged (Some data);
     Debugged (_callback_url (self w)); Requested (request_of w data)].
Proof.
  intros Hdata Htransport. cbn zeta.
  rewrite send_msg_unfold, Hdata. cbn zeta. rewrite Htransport.
  split_and!; try done; simpl_world; try done.
  by rewrite <- !app_assoc.
Qed.

Lemma send_msg_returns_body_witness :
  let w := Sample.configured in
  let r := send_msg Sample.keys_encoder (Sample.accepting Sample.midnight)
             [("type", VStr "play_start")] w in
  r.1 = Return (Some "ok") /\
  warnings r.2 = warnings w /\
  http_log r.2 = http_log w ++ [request_of w "type"] /\
  call_headers (request_of w "type") =
    [("Content-type", "application/json")] /\
  events r.2 =
    events w ++
    [HandedOver [("type", VStr "play_start")]; Debugged (Some "type");
     Debugged (_callback_url (self w)); Requested (request_of w "type")].
Proof.
  apply (send_msg_returns_body Sample.keys_encoder
           (Sample.accepting Sample.midnight)
           [("type", VStr "play_start")] Sample.configured "type" "ok");
    reflexivity.
Defined.

(** X2. What [except Exception] lets through: when the transport raises
    something that is not an instance of [Exception] (a
    [KeyboardInterrupt] during the request), [send_msg] raises it to its
    caller and logs no warning. *)
Theorem send_msg_lets_interrupt_pass
    json_dumps E (msg : dict) (w : world) (data : string) (e : exn) :
  json_dumps (store w) msg = Return data ->
  transport E (_callback_url (self w)) data = Raise e ->
  is_Exception e = false ->
  let r := send_msg json_dumps E msg w in
  r.1 = Raise e /\
  warnings r.2 = warnings w /\
  http_log r.2 = http_log w ++ [request_of w data] /\
  deliver json_dumps E msg w = (Raise e, r.2).
Proof.
  intros Hdata Htransport Hclass. cbn zeta. unfold deliver, bind.
  rewrite send_msg_unfold, Hdata. cbn zeta. rewrite Htransport, Hclass.
  split_and!; try done; by simpl_world.
Qed.

Lemma send_msg_lets_interrupt_pass_witness :
  let w := Sample.configured in
  let E := interrupted Sample.midnight in
  let msg := [("type", VStr "play_start")] in
  let r := send_msg Sample.keys_encoder E msg w in
  r.1 = Raise KeyboardInterrupt /\
  warnings r.2 = warnings w /\
  http_log r.2 = http_log w ++ [request_of w "type"] /\
  deliver Sample.keys_encoder E msg w = (Raise KeyboardInterrupt, r.2).
Proof.
  apply (send_msg_lets_interrupt_pass Sample.keys_encoder
           (interrupted Sample.midnight)
           [("type", VStr "play_start")] Sample.configured "type"
           KeyboardInterrupt);
    reflexivity.
Defined.

(** X3. One attempt, and nothing else touched: whatever the encoder and
    the transport do, [send_msg] leaves the plugin object and the store as
    they were and reads no clock; it makes at most one request, always to
    the URL of the plugin and with the JSON content type; and it returns
    no value exactly when it has logged a warning, of which there is then
    one. *)
Theorem send_msg_single_attempt json_dumps E (msg : dict) (w : world) :
  let r := send_msg json_dumps E msg w in
  self r.2 = self w /\ store r.2 = store w /\
  clock_reads r.2 = clock_reads w /\
  (http_log r.2 = http_log w \/
   exists data, http_log r.2 = http_log w ++ [request_of w data]) /\
  ((r.1 = Return None /\ exists warning, warnings r.2 = warnings w ++ [warning])
   \/ (r.1 <> Return None /\ warnings r.2 = warnings w)).
Proof.
  cbn zeta. rewrite send_msg_unfold.
  destruct (json_dumps (store w) msg) as [data|e]; cbn zeta.
  - destruct (transport E _ data) as [body|e]; [|destruct (is_Exception e)];
      simpl_world; split_and!; try done; try (right; by exists data).
    + right. done.
    + left. split; [done|]. by eexists.
    + right. done.
  - simpl_world. split_and!; try done; [by left | by right].
Qed.

(** ** Setting the options *)

(** X4. [set_options] in full. When the base class's [set_options]
    raises, [set_options] raises the same exception and leaves everything
    as it was: no URL is stored, the flag is not set, nothing is logged.
    When it returns, [set_options] returns too: it stores whatever the
    option resolves to as the URL, leaves the current play and the store
    alone, never calls the transport, and logs its warning, once, exactly
    when the option resolves to [None]. It can set the [disabled] flag and
    never clears it: a plugin disabled once stays disabled when it is
    configured again with a URL. *)
Theorem set_options_effect
    (super_set_options : outcome unit)
    (get_option : string -> option string) (w : world) :
  let r := set_options super_set_options get_option w in
  let url := get_option "json_webhook_url" in
  match super_set_options with
  | Raise e => r = (Raise e, w)
  | Return _ =>
      r.1 = Return () /\
      _callback_url (self r.2) = url /\
      _last_play (self r.2) = _last_play (self w) /\
      disabled (self r.2) =
        disabled (self w) || (if url is Some _ then false else true) /\
      store r.2 = store w /\
      events r.2 =
        events w ++
        (if url is Some _ then [] else [Warned missing_url_warning])
  end.
Proof.
  cbn zeta. destruct super_set_options as [[]|e]; [|reflexivity].
  unfold set_options, set_callback_url, set_disabled.
  run_monad. simpl_world.
  destruct (get_option "json_webhook_url") as [url|]; simpl_world;
    rewrite ?orb_false_r, ?orb_true_r, ?app_nil_r; done.
Qed.

(** X5. Where the requests go: once [set_options] has stored a URL, the
    request of every callback that gets to deliver an envelope the encoder
    renders goes to that URL, with the rendering as its body. *)
Theorem configured_url_receives_requests
    json_dumps (get_option : string -> option string) (url : string)
    (w : world) E (n : notification) (msg : dict) (data : string) :
  get_option "json_webhook_url" = Some url ->
  let w1 := (set_options (Return ()) get_option w).2 in
  let w2 := (notify json_dumps E n w1).2 in
  envelopes w2 = envelopes w1 ++ [msg] ->
  json_dumps (store w2) msg = Return data ->
  http_log w2 =
    http_log w ++
    [{| call_url := Some url; call_data := data;
        call_headers := headers_sent |}].
Proof.
  intros Hurl w1 w2 Hmsg Hdata.
  assert (Hw1 : _callback_url (self w1) = Some url /\
                http_log w1 = http_log w).
  { unfold w1, set_options, set_callback_url, set_disabled.
    run_monad. simpl_world. rewrite Hurl. by simpl_world. }
  destruct Hw1 as [Hurl1 Hlog1].
  destruct (self_after_configuration n (self w1)) as [Hurl2 _].
  destruct (notify_handed_over _ _ _ _ _ Hmsg) as [_ (h & Hdeliver)].
  unfold w2 in Hdata |- *. rewrite Hdeliver in Hdata |- *.
  match type of Hdata with
  | context [deliver ?jd ?E0 ?m ?w0] =>
      destruct (deliver_frame jd E0 m w0) as (_ & Hstore & _);
      rewrite Hstore in Hdata;
      destruct (deliver_outcome jd E0 m w0 data Hdata) as [Hlog _]
  end.
  rewrite Hlog. simpl_world. by rewrite Hurl2, Hurl1, Hlog1.
Qed.

Lemma configured_url_receives_requests_witness :
  let w := initial_world Sample.engine_store in
  let w1 :=
    (set_options (Return ()) (fun _ => Some "http://hook.example/events")
       w).2 in
  let w2 := (notify Sample.keys_encoder (Sample.accepting Sample.midnight)
               (RunnerStart Sample.web1 Sample.t1) w1).2 in
  http_log w2 =
    http_log w ++
    [{| call_url := Some "http://hook.example/events";
        call_data := "type,play,id,path,name,start,host";
        call_headers := headers_sent |}].
Proof.
  apply (configured_url_receives_requests Sample.keys_encoder
           (fun _ => Some "http://hook.example/events")
           "http://hook.example/events"
           (initial_world Sample.engine_store)
           (Sample.accepting Sample.midnight)
           (RunnerStart Sample.web1 Sample.t1)
           (envelope_of "2024-01-01T00:00:00Z" None 2%positive
              (RunnerStart Sample.web1 Sample.t1)));
    reflexivity.
Defined.

(** ** Attribute interception *)

Lemma str_in_spec (name : string) (names : list string) :
  str_in name names = true <-> name ∈ names.
Proof.
  unfold str_in. rewrite existsb_exists. split.
  - intros (x & Hin & Heq). apply String.eqb_eq in Heq as ->.
    by apply list_elem_of_In.
  - intros Hin. exists name. split; [by apply list_elem_of_In|].
    apply String.eqb_refl.
Qed.

(** X6. What [__getattribute__] gives. For the four completion names it
    always returns a partial application, whatever else the object has:
    the index taken from the result of [rsplit] is there, and the flags
    bound are [ok], [failed] or [skipped] set to true, each for its own
    name, and no flag at all for [v2_runner_on_unreachable]. It returns a
    partial application for no other name. Every other name goes to the
    ordinary lookup, which finds what the class defines and what it
    inherits; [AttributeError], for a name that is neither, is the only
    exception [__getattribute__] raises. *)
Theorem getattribute_intercepts_four_names
    (inherited : string -> bool) (name : string) :
  match __getattribute__ inherited name with
  | Return (PartialRecordTaskResult on_info) =>
      (name = "v2_runner_on_ok" /\ on_info = [("ok", VBool true)]) \/
      (name = "v2_runner_on_failed" /\ on_info = [("failed", VBool true)]) \/
      (name = "v2_runner_on_skipped" /\
       on_info = [("skipped", VBool true)]) \/
      (name = "v2_runner_on_unreachable" /\ on_info = [])
  | Return (ObjectAttribute name') =>
      name' = name /\ (name ∉ intercepted_names) /\
      (name ∈ own_attributes \/ inherited name = true)
  | Raise e =>
      e = AttributeError name /\ (name ∉ intercepted_names) /\
      (name ∉ own_attributes) /\ inherited name = false
  end /\
  (name ∈ intercepted_names <->
   exists on_info,
     __getattribute__ inherited name =
     Return (PartialRecordTaskResult on_info)).
Proof.
  destruct (str_in name intercepted_names) eqn:Hin.
  - apply str_in_spec in Hin. pose proof Hin as Hin'.
    unfold intercepted_names in Hin.
    rewrite !elem_of_cons, elem_of_nil in Hin.
    destruct Hin as [->|[->|[->|[->|[]]]]];
      (split; [simpl; auto 10 | split; [intros _; eexists; reflexivity|done]]).
  - assert (Hnot : name ∉ intercepted_names).
    { rewrite <- str_in_spec. by rewrite Hin. }
    assert (Hlookup : __getattribute__ inherited name =
                      object_getattribute inherited name).
    { unfold __getattribute__. fold intercepted_names. by rewrite Hin. }
    rewrite Hlookup. unfold object_getattribute. split.
    + destruct (str_in name own_attributes) eqn:Hown; cbn [orb].
      * split_and!; [done | done |]. left. by apply str_in_spec.
      * destruct (inherited name) eqn:Hbase.
        -- split_and!; [done | done | by right].
        -- split_and!; [done | done | | done].
           rewrite <- str_in_spec. by rewrite Hown.
    + split; [done|]. intros [on_info Hpartial].
      destruct (str_in name own_attributes || inherited name); done.
Qed.

(** ** Every callback *)

Lemma deliver_cases json_dumps E (msg : dict) (w : world) :
  let r := deliver json_dumps E msg w in
  self r.2 = self w /\ store r.2 = store w /\
  clock_reads r.2 = clock_reads w /\
  envelopes r.2 = envelopes w ++ [msg] /\
  (http_log r.2 = http_log w \/
   exists data, http_log r.2 = http_log w ++ [request_of w data]) /\
  (warnings r.2 = warnings w \/
   exists warning, warnings r.2 = warnings w ++ [warning]).
Proof.
  cbn zeta. unfold deliver, bind. rewrite send_msg_unfold.
  destruct (json_dumps (store w) msg) as [data|e]; cbn zeta.
  - destruct (transport E _ data) as [body|e]; [|destruct (is_Exception e)];
      cbv beta iota delta [ret]; simpl_world; split_and!; try done;
      try (right; by eexists); by left.
  - simpl_world. split_and!; try done; by left.
Qed.

(** X7. The shape of the envelopes: the envelope a callback hands over has
    the keys of its kind, in the order of the source and without
    repetition, and its [type] is the tag of the kind. The keys do not
    depend on the values: not on the play, the task or the host, not on
    [is_conditional], not on the keyword arguments of a completion. *)
Theorem envelope_has_the_keys_of_its_kind
    json_dumps E (n : notification) (w : world) (ev : dict) :
  envelopes (notify json_dumps E n w).2 = envelopes w ++ [ev] ->
  Dict.keys ev = envelope_keys n /\
  NoDup (Dict.keys ev) /\
  Dict.get ev "type" = Some (VStr (type_tag n)).
Proof.
  intros Hev. destruct (notify_handed_over _ _ _ _ _ Hev) as [-> _].
  destruct n; (split_and!; [reflexivity | | reflexivity]);
    cbn; repeat (apply NoDup_cons; split;
                 [rewrite ?elem_of_cons, elem_of_nil; intros H;
                  repeat destruct H as [H|H]; discriminate || done|]);
    apply NoDup_nil; done.
Qed.

Lemma envelope_has_the_keys_of_its_kind_witness :
  let n := HandlerTaskStart Sample.t1 in
  let ev :=
    [("type", VStr "task__handler_start"); ("play", VNone);
     ("id", VStr "t1"); ("path", VStr "site.yml:7");
     ("name", VStr "install"); ("start", VStr "2024-01-01T00:00:00Z");
     ("notified_host", VList [VStr "web1"])] in
  Dict.keys ev = envelope_keys n /\
  NoDup (Dict.keys ev) /\
  Dict.get ev "type" = Some (VStr (type_tag n)).
Proof.
  apply (envelope_has_the_keys_of_its_kind Sample.keys_encoder
           (Sample.accepting Sample.midnight)
           (HandlerTaskStart Sample.t1) Sample.configured).
  reflexivity.
Defined.

(** X8. One attempt per event: a callback hands over at most one
    envelope, reads the clock at most once, makes at most one request
    (to the URL the plugin holds, with the JSON content type) and logs at
    most one warning. Nothing is retried and nothing is sent twice. *)
Theorem notify_single_attempt json_dumps E (n : notification) (w : world) :
  let w' := (notify json_dumps E n w).2 in
  (envelopes w' = envelopes w \/
   exists ev, envelopes w' = envelopes w ++ [ev]) /\
  (clock_reads w' = clock_reads w \/
   clock_reads w' = clock_reads w ++ [utcnow E]) /\
  (http_log w' = http_log w \/
   exists data, http_log w' = http_log w ++ [request_of w data]) /\
  (warnings w' = warnings w \/
   exists warning, warnings w' = warnings w ++ [warning]).
Proof.
  cbn zeta.
  destruct (notify_delivers json_dumps E n w) as [[_ ->]|(h & _ & ->)].
  - simpl. split_and!; by left.
  - destruct (self_after_configuration n (self w)) as [Hurl _].
    match goal with
    | |- context [deliver ?jd ?E0 ?msg ?w0] =>
        destruct (deliver_cases jd E0 msg w0)
          as (_ & _ & -> & -> & Hlog & Hwarn)
    end.
    split_and!.
    + right. eexists. by simpl_world.
    + right. by simpl_world.
    + destruct Hlog as [->|[data ->]]; [left; by simpl_world|].
      right. exists data. unfold request_of. simpl_world. by rewrite Hurl.
    + destruct Hwarn as [->|[m ->]]; [left; by simpl_world|].
      right. exists m. by simpl_world.
Qed.

(** X9. A failed delivery does not fail the callback: when the envelope
    of a callback is rendered and the transport answers or raises
    instances of [Exception] only, the callback returns normally. *)
Theorem notify_survives_transport_error
    json_dumps E (n : notification) (w : world) (msg : dict) (data : string) :
  let r := notify json_dumps E n w in
  envelopes r.2 = envelopes w ++ [msg] ->
  json_dumps (store r.2) msg = Return data ->
  (forall e, transport E (_callback_url (self w)) data = Raise e ->
             is_Exception e = true) ->
  r.1 = Return ().
Proof.
  intros r Hmsg Hdata Hclass. unfold r in *.
  destruct (self_after_configuration n (self w)) as [Hurl _].
  destruct (notify_handed_over _ _ _ _ _ Hmsg) as [_ (h & Hdeliver)].
  rewrite Hdeliver in Hdata |- *.
  match type of Hdata with
  | context [deliver ?jd ?E0 ?m ?w0] =>
      destruct (deliver_frame jd E0 m w0) as (_ & Hstore & _);
      rewrite Hstore in Hdata
  end.
  unfold deliver, bind. rewrite send_msg_unfold, Hdata. cbn zeta.
  revert Hclass. simpl_world. rewrite Hurl. intros Hclass.
  destruct (transport E _ data) as [body|e] eqn:Htransport; [done|].
  by rewrite (Hclass e eq_refl).
Qed.

Lemma notify_survives_transport_error_witness :
  let r := notify Sample.keys_encoder
             (Sample.unreachable_webhook Sample.midnight)
             (TaskStart Sample.t1 true) Sample.configured in
  r.1 = Return ().
Proof.
  apply (notify_survives_transport_error Sample.keys_encoder
           (Sample.unreachable_webhook Sample.midnight)
           (TaskStart Sample.t1 true) Sample.configured
           (envelope_of "2024-01-01T00:00:00Z" None 2%positive
              (TaskStart Sample.t1 true))
           "type,play,id,path,name,start").
  - reflexivity.
  - reflexivity.
  - intros e He. injection He as <-. reflexivity.
Defined.

(** ** The store *)

Lemma notify_store json_dumps E (n : notification) (w : world) :
  let w' := (notify json_dumps E n w).2 in
  if makes_mapping n
  then store w' = store w \/
       exists d, store w' = <[fresh (dom (store w)) := d]> (store w)
  else store w' = store w.
Proof.
  cbn zeta.
  assert (Hcompletion : forall c r kw,
    let w' := (completion_handler json_dumps E c r kw w).2 in
    store w' = store w \/
    exists d, store w' = <[fresh (dom (store w)) := d]> (store w)).
  { intros c r kw. cbn zeta.
    destruct (store w !! TaskResult._result r) as [payload|] eqn:Hpayload.
    - rewrite (completion_handler_delivers _ _ c _ kw _ _ Hpayload).
      match goal with
      | |- context [deliver ?jd ?E0 ?msg ?w0] =>
          destruct (deliver_frame jd E0 msg w0) as (_ & -> & _)
      end.
      right. eexists. by simpl_world.
    - rewrite completion_handler_dangling by done. by left. }
  destruct n as [p|host task|task c|task|stats|r kw|r kw|r kw|r kw];
    cbn [makes_mapping].
  - change (notify json_dumps E (PlayStart p) w)
      with (deliver json_dumps E
              (envelope_of (timestamp_at E) (_last_play (self w))
                 (fresh (dom (store w))) (PlayStart p))
              (at_envelope_ready E
                 (with_self (self_after (PlayStart p) (self w)) w))).
    match goal with
    | |- context [deliver ?jd ?E0 ?msg ?w0] =>
        destruct (deliver_frame jd E0 msg w0) as (_ & -> & _)
    end. done.
  - change (notify json_dumps E (RunnerStart host task) w)
      with (deliver json_dumps E
              (envelope_of (timestamp_at E) (_last_play (self w))
                 (fresh (dom (store w))) (RunnerStart host task))
              (at_envelope_ready E w)).
    match goal with
    | |- context [deliver ?jd ?E0 ?msg ?w0] =>
        destruct (deliver_frame jd E0 msg w0) as (_ & -> & _)
    end. done.
  - change (notify json_dumps E (TaskStart task c) w)
      with (deliver json_dumps E
              (envelope_of (timestamp_at E) (_last_play (self w))
                 (fresh (dom (store w))) (TaskStart task c))
              (at_envelope_ready E w)).
    match goal with
    | |- context [deliver ?jd ?E0 ?msg ?w0] =>
        destruct (deliver_frame jd E0 msg w0) as (_ & -> & _)
    end. done.
  - change (notify json_dumps E (HandlerTaskStart task) w)
      with (deliver json_dumps E
              (envelope_of (timestamp_at E) (_last_play (self w))
                 (fresh (dom (store w))) (HandlerTaskStart task))
              (at_envelope_ready E w)).
    match goal with
    | |- context [deliver ?jd ?E0 ?msg ?w0] =>
        destruct (deliver_frame jd E0 msg w0) as (_ & -> & _)
    end. done.
  - change (notify json_dumps E (PlaybookStats stats) w)
      with (v2_playbook_on_stats json_dumps E stats w).
    rewrite playbook_on_stats_delivers.
    match goal with
    | |- context [deliver ?jd ?E0 ?msg ?w0] =>
        destruct (deliver_frame jd E0 msg w0) as (_ & -> & _)
    end.
    right. eexists. by simpl_world.
  - apply (Hcompletion Ok r kw).
  - apply (Hcompletion Failed r kw).
  - apply (Hcompletion Unreachable r kw).
  - apply (Hcompletion Skipped r kw).
Qed.

(** X10. The dictionaries the engine shares with the plugin are read,
    never written: whatever the encoder and the transport do, and whether
    the callback returns or raises, every dictionary the store held before
    a callback is there after it, unchanged. What a callback makes of them
    (the copy of a completion's result, the summary of the end of run) is a
    new object. *)
Theorem notify_keeps_existing_dictionaries
    json_dumps E (n : notification) (w : world) :
  store w ⊆ store (notify json_dumps E n w).2.
Proof.
  pose proof (notify_store json_dumps E n w) as H. cbn zeta in H.
  destruct (makes_mapping n).
  - destruct H as [->|[d ->]]; [done|].
    apply insert_subseteq, fresh_loc_lookup.
  - by rewrite H.
Qed.

(** ** The end-of-run summary *)

Lemma summary_fold_get
    (f : string -> value) (hosts : list string) (d : dict) (h : string) :
  Dict.get (fold_left (fun acc k => Dict.setitem acc k (f k)) hosts d) h =
  if bool_decide (h ∈ hosts) then Some (f h) else Dict.get d h.
Proof.
  revert d. induction hosts as [|k hosts IH]; intros d; cbn [fold_left].
  - case_bool_decide as H; [by apply elem_of_nil in H | done].
  - rewrite IH, dict_get_setitem.
    destruct (String.eqb_spec k h) as [->|Hne];
      repeat case_bool_decide; try done;
      rewrite elem_of_cons in *; naive_solver.
Qed.

(** X11. Reading the summary: whatever the processed hosts are (none at
    all included), the mapping of the [playbook_end] envelope holds, for
    every host name, the counters of that host when it was processed and
    nothing when it was not. *)
Theorem playbook_end_summary_lookup
    json_dumps E (stats : Stats.t) (w : world) :
  let w' := (v2_playbook_on_stats json_dumps E stats w).2 in
  exists (l : positive) (summary : dict),
    envelopes w' = envelopes w ++ [playbook_end_envelope (timestamp_at E) l]
    /\ store w' !! l = Some summary
    /\ (Stats.processed stats = [] -> summary = [])
    /\ forall h,
         Dict.get summary h =
         if bool_decide (h ∈ Dict.keys (Stats.processed stats))
         then Some (Stats.summarize stats h) else None.
Proof.
  cbn zeta. rewrite playbook_on_stats_delivers.
  match goal with
  | |- context [deliver ?jd ?E0 ?msg ?w0] =>
      destruct (deliver_frame jd E0 msg w0) as (_ & Hstore & Henv)
  end.
  eexists _, _. split_and!.
  - rewrite Henv. by simpl_world.
  - rewrite Hstore. simpl_world. apply lookup_insert_eq.
  - intros ->. reflexivity.
  - intros h. rewrite summary_fold_get. simpl.
    assert (Hiff : h ∈ sorted (Dict.keys (Stats.processed stats)) <->
                   h ∈ Dict.keys (Stats.processed stats))
      by (by rewrite sorted_Permutation).
    destruct (decide (h ∈ Dict.keys (Stats.processed stats))) as [Hin|Hnotin].
    + rewrite !bool_decide_eq_true_2; [done | done | by apply Hiff].
    + rewrite !bool_decide_eq_false_2; [done | done | by rewrite Hiff].
Qed.

(** ** The result mapping of a completion *)

Lemma dict_keys_setitem_eq (d : dict) (k : string) (v : value) :
  Dict.keys (Dict.setitem d k v) =
  if bool_decide (k ∈ Dict.keys d) then Dict.keys d else Dict.keys d ++ [k].
Proof.
  unfold Dict.keys. induction d as [|[k0 v0] d IH].
  - rewrite bool_decide_eq_false_2; [done | apply not_elem_of_nil].
  - cbn [Dict.setitem]. rewrite !fmap_cons. cbn [fst].
    destruct (String.eqb_spec k0 k) as [->|Hne].
    + rewrite fmap_cons. cbn [fst].
      rewrite bool_decide_eq_true_2; [done | by left].
    + rewrite fmap_cons, IH. cbn [fst].
      repeat case_bool_decide; try done;
        rewrite elem_of_cons in *; naive_solver.
Qed.

Lemma dict_setitem_NoDup (d : dict) (k : string) (v : value) :
  NoDup (Dict.keys d) -> NoDup (Dict.keys (Dict.setitem d k v)).
Proof.
  intros H. rewrite dict_keys_setitem_eq. case_bool_decide as Hin; [done|].
  apply NoDup_app. split_and!; [done | | apply NoDup_singleton].
  intros x Hx Hk. apply list_elem_of_singleton in Hk. by subst.
Qed.

Lemma dict_keys_setitem_new (d : dict) (k : string) (v : value) :
  Dict.keys (Dict.setitem d k v) =
  Dict.keys d ++ filter (fun x => x ∉ Dict.keys d) [k].
Proof.
  rewrite dict_keys_setitem_eq, filter_cons, filter_nil.
  case_bool_decide; case_decide; try done. by rewrite app_nil_r.
Qed.

Lemma dict_keys_setitem_twice (d : dict) (k1 k2 : string) (v1 v2 : value) :
  k1 <> k2 ->
  Dict.keys (Dict.setitem (Dict.setitem d k1 v1) k2 v2) =
  Dict.keys d ++ filter (fun x => x ∉ Dict.keys d) [k1; k2].
Proof.
  intros Hne.
  rewrite (dict_keys_setitem_new (Dict.setitem d k1 v1)).
  rewrite dict_keys_setitem_new, <- app_assoc. f_equal.
  change [k1; k2] with ([k1] ++ [k2]). rewrite filter_app. f_equal.
  rewrite !(filter_cons _ k2), !filter_nil.
  pose proof (dict_keys_setitem d k1 k2 v1) as Hiff.
  rewrite <- (dict_keys_setitem_new d k1 v1).
  repeat case_decide; try done; exfalso; naive_solver.
Qed.

(** X12. The order of the keys of the result mapping: the keys of the
    engine's payload come first, each at the place it had (a flag or an
    [action] the payload already holds is overwritten where it stands);
    then the outcome flag and then [action], when the payload does not
    have them. Unique keys stay unique. *)
Theorem completion_result_key_order
    json_dumps E (c : completion) (result : TaskResult.t) (kwargs : dict)
    (w : world) (payload : dict) :
  store w !! TaskResult._result result = Some payload ->
  let w' := (completion_handler json_dumps E c result kwargs w).2 in
  exists mapping,
    store w' !! fresh (dom (store w)) = Some mapping /\
    Dict.keys mapping =
      Dict.keys payload ++
      filter (fun k => k ∉ Dict.keys payload)
             (Dict.keys (outcome_flags c) ++ ["action"]) /\
    (NoDup (Dict.keys payload) -> NoDup (Dict.keys mapping)).
Proof.
  intros Hpayload. cbn zeta.
  rewrite (completion_handler_delivers _ _ c _ kwargs _ _ Hpayload).
  match goal with
  | |- context [deliver ?jd ?E0 ?msg ?w0] =>
      destruct (deliver_frame jd E0 msg w0) as (_ & Hstore & _)
  end.
  eexists. split_and!.
  - rewrite Hstore. simpl_world. apply lookup_insert_eq.
  - unfold Dict.copy.
    destruct c; cbn [outcome_flags Dict.update fold_left fst snd];
      first [by apply dict_keys_setitem_twice | apply dict_keys_setitem_new].
  - intros Hnodup. unfold Dict.copy.
    apply dict_setitem_NoDup.
    destruct c; cbn [outcome_flags Dict.update fold_left fst snd];
      try apply dict_setitem_NoDup; done.
Qed.

Lemma completion_result_key_order_witness :
  let w := Sample.configured in
  let w' := (completion_handler Sample.keys_encoder
               (Sample.accepting Sample.midnight) Skipped Sample.result []
               w).2 in
  exists mapping,
    store w' !! fresh (dom (store w)) = Some mapping /\
    Dict.keys mapping =
      Dict.keys Sample.payload ++
      filter (fun k => k ∉ Dict.keys Sample.payload)
             (Dict.keys (outcome_flags Skipped) ++ ["action"]) /\
    (NoDup (Dict.keys Sample.payload) -> NoDup (Dict.keys mapping)).
Proof.
  apply (completion_result_key_order Sample.keys_encoder
           (Sample.accepting Sample.midnight) Skipped Sample.result []
           Sample.configured Sample.payload).
  reflexivity.
Defined.

(** ** The current play at the start of a run *)

Lemma latest_play_without_start
    (ns : list notification) (current : option string) :
  forallb (fun n => negb (is_play_start n)) ns = true ->
  latest_play ns current = current.
Proof.
  unfold latest_play. revert current.
  induction ns as [|n ns IH]; intros current Hns; simpl in *; [done|].
  apply andb_true_iff in Hns as [Hn Hns].
  rewrite IH by done. by destruct n.
Qed.

(** X13. Before the first play: [__init__] leaves the current play at
    [None] and [set_options] does not touch it, whether it returns or
    raises, so as long as the run has
    started no play, the [play] field of an envelope that has one is
    [None] (JSON [null]), never a left-over identifier. *)
Theorem play_is_null_before_first_play
    json_dumps (super_set_options : outcome unit)
    (get_option : string -> option string)
    (h : gmap positive dict) (steps : list (env * notification))
    E (n : notification) (ev : dict) :
  forallb (fun n => negb (is_play_start n)) steps.*2 = true ->
  let w0 := (set_options super_set_options get_option (initial_world h)).2 in
  let w1 := run json_dumps steps w0 in
  envelopes (notify json_dumps E n w1).2 = envelopes w1 ++ [ev] ->
  _last_play (self w1) = None /\
  ("play" ∈ Dict.keys ev -> Dict.get ev "play" = Some VNone).
Proof.
  intros Hsteps w0 w1 Hev.
  assert (Hnone : _last_play (self w1) = None).
  { unfold w1. rewrite run_last_play, latest_play_without_start by done.
    unfold w0. destruct super_set_options as [[]|e]; [|reflexivity].
    unfold set_options, set_callback_url, set_disabled. run_monad.
    simpl_world. by destruct (get_option "json_webhook_url"). }
  split; [done|].
  destruct (notify_handed_over _ _ _ _ _ Hev) as [-> _].
  rewrite Hnone.
  destruct n; cbn; try done; intros Hin; exfalso;
    rewrite ?elem_of_cons, elem_of_nil in Hin;
    repeat destruct Hin as [Hin|Hin]; done.
Qed.

Lemma play_is_null_before_first_play_witness :
  let json_dumps := Sample.keys_encoder in
  let E := Sample.accepting Sample.midnight in
  let w0 := (set_options (Return ())
               (fun _ => Some "http://hook.example/events")
               (initial_world Sample.engine_store)).2 in
  let w1 := run json_dumps [(E, TaskStart Sample.t1 false)] w0 in
  let ev :=
    envelope_of "2024-01-01T00:00:00Z" None 2%positive
      (RunnerStart Sample.web1 Sample.t1) in
  _last_play (self w1) = None /\
  ("play" ∈ Dict.keys ev -> Dict.get ev "play" = Some VNone).
Proof.
  apply (play_is_null_before_first_play Sample.keys_encoder (Return ())
           (fun _ => Some "http://hook.example/events") Sample.engine_store
           [(Sample.accepting Sample.midnight, TaskStart Sample.t1 false)]
           (Sample.accepting Sample.midnight)
           (RunnerStart Sample.web1 Sample.t1));
    reflexivity.
Defined.

(** ** The text of the timestamps *)

(** X14. The two lengths of a timestamp: [current_time] gives twenty
    characters when the reading of the clock has no microseconds and
    twenty-seven when it has some. *)
Theorem timestamp_has_one_of_two_lengths (E : env) :
  datetime.valid (utcnow E) = true ->
  String.length (timestamp_at E) =
  if datetime.microsecond (utcnow E) =? 0 then 20%nat else 27%nat.
Proof.
  intros Hvalid. unfold timestamp_at.
  destruct (datetime_valid_numerals _ Hvalid)
    as ((Ly & _) & (Lmo & _) & (Ld & _) & (Lh & _) & (Lmi & _) & (Ls & _)
        & (Lus & _)).
  rewrite timestamp_shape. unfold fraction_and_zone.
  repeat (rewrite str_length_app; cbn [String.length]).
  rewrite Ly, Lmo, Ld, Lh, Lmi, Ls.
  destruct (datetime.microsecond (utcnow E) =? 0); cbn [String.length].
  - reflexivity.
  - rewrite str_length_app, Lus. reflexivity.
Qed.

Lemma timestamp_has_one_of_two_lengths_witness :
  String.length (timestamp_at (Sample.accepting Sample.just_after_midnight))
  = 27%nat.
Proof.
  apply (timestamp_has_one_of_two_lengths
           (Sample.accepting Sample.just_after_midnight)).
  reflexivity.
Defined.

Lemma N_compare_by_cases (x y : N) (c : comparison) :
  match c with Eq => x = y | Lt => x < y | Gt => y < x end ->
  N.compare x y = c.
Proof.
  destruct c; intros H.
  - by apply N.compare_eq_iff.
  - by apply N.compare_lt_iff.
  - by apply N.compare_gt_iff.
Qed.

Lemma value_from_shift (s : string) (a : N) :
  value_from a s = a * 10 ^ N.of_nat (String.length s) + value_from 0 s.
Proof.
  revert a. induction s as [|c s IH]; intros a.
  - simpl. lia.
  - cbn [value_from String.length].
    rewrite (IH (10 * a + digit_value c)), (IH (10 * 0 + digit_value c)).
    rewrite Nat2N.inj_succ, N.pow_succ_r'. lia.
Qed.

Lemma digit_value_bound (c : ascii) :
  is_digit c = true ->
  digit_value c < 10 /\ N_of_ascii c = 48 + digit_value c.
Proof.
  unfold is_digit, digit_value. rewrite andb_true_iff, !N.leb_le. lia.
Qed.

Lemma value_from_bound (s : string) :
  all_digits s = true -> value_from 0 s < 10 ^ N.of_nat (String.length s).
Proof.
  induction s as [|c s IH]; intros Hall.
  - simpl. lia.
  - cbn [all_digits] in Hall. apply andb_true_iff in Hall as [Hc Hall].
    destruct (digit_value_bound c Hc) as [Hd _]. specialize (IH Hall).
    cbn [value_from String.length].
    rewrite value_from_shift, Nat2N.inj_succ, N.pow_succ_r'. nia.
Qed.

(** Numerals of one width compare as the numbers they write. *)
Lemma digits_compare (s1 s2 : string) :
  String.length s1 = String.length s2 ->
  all_digits s1 = true -> all_digits s2 = true ->
  String.compare s1 s2 = N.compare (value_from 0 s1) (value_from 0 s2).
Proof.
  revert s2. induction s1 as [|c1 s1 IH]; intros [|c2 s2] Hlen H1 H2;
    try discriminate Hlen.
  - reflexivity.
  - cbn [all_digits] in H1, H2.
    apply andb_true_iff in H1 as [Hc1 H1].
    apply andb_true_iff in H2 as [Hc2 H2].
    injection Hlen as Hlen.
    destruct (digit_value_bound c1 Hc1) as [Hd1 Hn1].
    destruct (digit_value_bound c2 Hc2) as [Hd2 Hn2].
    pose proof (value_from_bound s1 H1) as Hb1.
    pose proof (value_from_bound s2 H2) as Hb2. rewrite <- Hlen in Hb2.
    specialize (IH s2 Hlen H1 H2).
    cbn [String.compare value_from]. unfold Ascii.compare.
    rewrite (value_from_shift s1), (value_from_shift s2), <- Hlen.
    rewrite Hn1, Hn2.
    set (P := 10 ^ N.of_nat (String.length s1)) in *.
    destruct (N.compare_spec (48 + digit_value c1) (48 + digit_value c2))
      as [Heq|Hlt|Hgt].
    + rewrite IH. assert (digit_value c1 = digit_value c2) as -> by lia.
      destruct (N.compare_spec (value_from 0 s1) (value_from 0 s2));
        symmetry; apply N_compare_by_cases; nia.
    + symmetry. apply N_compare_by_cases. nia.
    + symmetry. apply N_compare_by_cases. nia.
Qed.

Lemma compare_app_same_length (a1 a2 r1 r2 : string) :
  String.length a1 = String.length a2 ->
  String.compare (a1 +:+ r1) (a2 +:+ r2) =
  match String.compare a1 a2 with
  | Eq => String.compare r1 r2
  | c => c
  end.
Proof.
  revert a2. induction a1 as [|c1 a1 IH]; intros [|c2 a2] Hlen;
    try discriminate Hlen.
  - reflexivity.
  - injection Hlen as Hlen. rewrite !str_app_cons.
    cbn [String.compare]. destruct (Ascii.compare c1 c2); [by apply IH|done..].
Qed.

Lemma compare_cons_same (c : ascii) (r1 r2 : string) :
  String.compare (String c r1) (String c r2) = String.compare r1 r2.
Proof.
  cbn [String.compare]. unfold Ascii.compare. by rewrite N.compare_refl.
Qed.

(** A field of fixed width decides the comparison unless it is equal. *)
Lemma field_compare (w : nat) (n1 n2 : N) (s1 s2 r1 r2 : string) :
  numeral w n1 s1 -> numeral w n2 s2 ->
  String.compare (s1 +:+ r1) (s2 +:+ r2) =
  match N.compare n1 n2 with
  | Eq => String.compare r1 r2
  | c => c
  end.
Proof.
  intros (L1 & A1 & V1) (L2 & A2 & V2).
  rewrite compare_app_same_length by congruence.
  rewrite digits_compare by congruence. by rewrite V1, V2.
Qed.

Ltac compare_field H1 H2 :=
  rewrite (field_compare _ _ _ _ _ _ _ H1 H2);
  match goal with
  | |- context [N.compare ?x ?y] =>
      let Heq := fresh "Heq" in
      let Hlt := fresh "Hlt" in
      let Hgt := fresh "Hgt" in
      destruct (N.compare_spec x y) as [Heq|Hlt|Hgt];
      [ rewrite Heq, N.ltb_irrefl, N.eqb_refl; cbn [orb andb];
        rewrite ?compare_cons_same
      | rewrite (proj2 (N.ltb_lt _ _) Hlt); reflexivity
      | rewrite (proj2 (N.ltb_ge _ _)) by lia;
        rewrite (proj2 (N.eqb_neq _ _)) by lia; reflexivity ]
  end.

(** X15. When the text order can be trusted: for two readings of the
    clock that both have microseconds, or both have none, the timestamps
    [current_time] makes of them are in the order of strings exactly when
    the readings are in the order of time. *)
Theorem timestamps_of_one_form_sort_like_instants (E1 E2 : env) :
  datetime.valid (utcnow E1) = true ->
  datetime.valid (utcnow E2) = true ->
  (datetime.microsecond (utcnow E1) =? 0) =
  (datetime.microsecond (utcnow E2) =? 0) ->
  String.leb (timestamp_at E1) (timestamp_at E2) =
  datetime.le (utcnow E1) (utcnow E2).
Proof.
  intros Hvalid1 Hvalid2 Hform.
  destruct (datetime_valid_numerals _ Hvalid1)
    as (Y1 & Mo1 & D1 & H1 & Mi1 & S1 & U1).
  destruct (datetime_valid_numerals _ Hvalid2)
    as (Y2 & Mo2 & D2 & H2 & Mi2 & S2 & U2).
  unfold timestamp_at, String.leb, datetime.le, datetime.to_tuple.
  cbn [datetime.lex_le]. rewrite !timestamp_shape.
  compare_field Y1 Y2. compare_field Mo1 Mo2. compare_field D1 D2.
  compare_field H1 H2. compare_field Mi1 Mi2. compare_field S1 S2.
  unfold fraction_and_zone. rewrite Hform.
  destruct (N.eqb_spec (datetime.microsecond (utcnow E2)) 0) as [Hzero|Hsome].
  - apply N.eqb_eq in Hform. rewrite Hform, Hzero. reflexivity.
  - rewrite compare_cons_same. compare_field U1 U2. reflexivity.
Qed.

Lemma timestamps_of_one_form_sort_like_instants_witness :
  String.leb (timestamp_at (Sample.accepting half_past_noon))
             (timestamp_at (Sample.accepting Sample.just_after_midnight)) =
  datetime.le half_past_noon Sample.just_after_midnight.
Proof.
  apply (timestamps_of_one_form_sort_like_instants
           (Sample.accepting half_past_noon)
           (Sample.accepting Sample.just_after_midnight));
    reflexivity.
Defined.

(** X16. One timestamp per reading: two readings of the clock that differ,
    be it by a microsecond, never get the same timestamp. *)
Theorem timestamps_tell_readings_apart (E1 E2 : env) :
  datetime.valid (utcnow E1) = true ->
  datetime.valid (utcnow E2) = true ->
  timestamp_at E1 = timestamp_at E2 ->
  utcnow E1 = utcnow E2.
Proof.
  intros Hvalid1 Hvalid2 Heq.
  pose proof (parse_time_isoformat _ Hvalid1) as Hparse1.
  pose proof (parse_time_isoformat _ Hvalid2) as Hparse2.
  unfold timestamp_at in Heq. rewrite Heq, Hparse2 in Hparse1.
  by injection Hparse1.
Qed.

Lemma timestamps_tell_readings_apart_witness :
  utcnow (Sample.accepting half_past_noon) =
  utcnow (Sample.unreachable_webhook half_past_noon).
Proof.
  apply (timestamps_tell_readings_apart (Sample.accepting half_past_noon)
           (Sample.unreachable_webhook half_past_noon));
    reflexivity.
Defined.

(** ** The hosts that notified a handler *)

(** X17. The [notified_host] list of a handler start: it has one entry per
    host of [task.notified_hosts], in the same order, each the name of its
    host; a host that appears twice is listed twice, and with no host the
    list is empty. *)
Theorem notified_host_lists_every_host
    json_dumps E (task : Task.t) (w : world) :
  let w' := (v2_playbook_on_handler_task_start json_dumps E task w).2 in
  exists ev names,
    envelopes w' = envelopes w ++ [ev] /\
    Dict.get ev "notified_host" = Some (VList names) /\
    length names = length (Task.notified_hosts task) /\
    (forall i,
        names !! i =
        (fun host => VStr (Host.get_name host)) <$>
          Task.notified_hosts task !! i) /\
    (Task.notified_hosts task = [] -> names = []).
Proof.
  cbn zeta.
  change (v2_playbook_on_handler_task_start json_dumps E task w)
    with (deliver json_dumps E
            (envelope_of (timestamp_at E) (_last_play (self w))
               (fresh (dom (store w))) (HandlerTaskStart task))
            (at_envelope_ready E w)).
  match goal with
  | |- context [deliver ?jd ?E0 ?msg ?w0] =>
      destruct (deliver_frame jd E0 msg w0) as (_ & _ & Henv)
  end.
  eexists _, _. split_and!.
  - rewrite Henv. by simpl_world.
  - reflexivity.
  - by rewrite length_map.
  - intros i. apply list_lookup_fmap.
  - by intros ->.
Qed.

(** ** A whole run *)





(** ** The [disabled] flag and the handlers *)

Lemma deliver_ignores_disabled json_dumps E (msg : dict) (w : world) (b : bool) :
  deliver json_dumps E msg (with_disabled b w) =
  ((deliver json_dumps E msg w).1,
   with_disabled b (deliver json_dumps E msg w).2).
Proof.
  unfold deliver, bind, ret. rewrite !send_msg_unfold.
  change (store (with_disabled b w)) with (store w).
  change (_callback_url (self (with_disabled b w)))
    with (_callback_url (self w)).
  destruct (json_dumps (store w) msg) as [data|e]; [|reflexivity].
  cbv zeta.
  destruct (transport E (_callback_url (self w)) data) as [body|e];
    [reflexivity|].
  destruct (is_Exception e); reflexivity.
Qed.

Lemma completion_ignores_disabled
    json_dumps E (c : completion) r kw (w : world) (b : bool) :
  completion_handler json_dumps E c r kw (with_disabled b w) =
  ((completion_handler json_dumps E c r kw w).1,
   with_disabled b (completion_handler json_dumps E c r kw w).2).
Proof.
  destruct (store w !! TaskResult._result r) as [payload|] eqn:Hpayload.
  - rewrite (completion_handler_delivers _ _ c _ kw w _ Hpayload).
    rewrite (completion_handler_delivers _ _ c _ kw (with_disabled b w) _
               Hpayload).
    match goal with
    | |- _ = ((deliver ?jd ?E0 ?msg ?w0).1, _) =>
        exact (deliver_ignores_disabled jd E0 msg w0 b)
    end.
  - rewrite (completion_handler_dangling _ _ c _ kw w Hpayload).
    by rewrite (completion_handler_dangling _ _ c _ kw (with_disabled b w)
                  Hpayload).
Qed.

(** X19. The handlers do not read the [disabled] flag: with the flag set
    or cleared, a callback returns or raises the same, hands over the same
    envelope, makes the same request and logs the same lines, and it
    leaves the flag as it found it. Leaving a disabled plugin alone is up
    to whoever invokes the callbacks. *)
Theorem notify_ignores_disabled
    json_dumps E (n : notification) (w : world) (b : bool) :
  notify json_dumps E n (with_disabled b w) =
  ((notify json_dumps E n w).1,
   with_disabled b (notify json_dumps E n w).2).
Proof.
  destruct n as [p|host task|task c|task|stats|r kw|r kw|r kw|r kw].
  - apply (deliver_ignores_disabled json_dumps E
             (envelope_of (timestamp_at E) (_last_play (self w))
                (fresh (dom (store w))) (PlayStart p))
             (at_envelope_ready E
                (with_self (self_after (PlayStart p) (self w)) w))).
  - apply (deliver_ignores_disabled json_dumps E
             (envelope_of (timestamp_at E) (_last_play (self w))
                (fresh (dom (store w))) (RunnerStart host task))
             (at_envelope_ready E w)).
  - apply (deliver_ignores_disabled json_dumps E
             (envelope_of (timestamp_at E) (_last_play (self w))
                (fresh (dom (store w))) (TaskStart task c))
             (at_envelope_ready E w)).
  - apply (deliver_ignores_disabled json_dumps E
             (envelope_of (timestamp_at E) (_last_play (self w))
                (fresh (dom (store w))) (HandlerTaskStart task))
             (at_envelope_ready E w)).
  - change (notify json_dumps E (PlaybookStats stats) w)
      with (v2_playbook_on_stats json_dumps E stats w).
    change (notify json_dumps E (PlaybookStats stats) (with_disabled b w))
      with (v2_playbook_on_stats json_dumps E stats (with_disabled b w)).
    rewrite !playbook_on_stats_delivers.
    match goal with
    | |- _ = ((deliver ?jd ?E0 ?msg ?w0).1, _) =>
        exact (deliver_ignores_disabled jd E0 msg w0 b)
    end.
  - apply (completion_ignores_disabled json_dumps E Ok r kw).
  - apply (completion_ignores_disabled json_dumps E Failed r kw).
  - apply (completion_ignores_disabled json_dumps E Unreachable r kw).
  - apply (completion_ignores_disabled json_dumps E Skipped r kw).
Qed.
